(** * fedex_api: event normalisation and latest-result resolution

    A shallow embedding of [src/fedex_api.py]: the JSON values the client
    decodes, the exceptions it can raise, the [Event] enumeration, the
    dataclasses, [FedexAPI.track_by_number] and [FedexAPI.download_pod],
    followed by the properties of the tracking specification. *)

From Stdlib Require Import Ascii String ZArith Lia.
From stdpp Require Import base numbers list option strings.

Set Warnings "-register-all".

Local Open Scope string_scope.
Local Open Scope list_scope.

(** ** Python values and exceptions *)

(** The values [response.json()] can produce.  A number keeps its literal:
    the client never computes with one. *)
Inductive pyval : Type :=
| PNone
| PBool (b : bool)
| PNum (literal : string)
| PStr (s : string)
| PList (items : list pyval)
| PDict (entries : list (string * pyval)).

(** The exceptions that can leave the client's methods. *)
Inductive exn : Type :=
| KeyError (key : pyval)
| TypeError
| ValueError
| AttributeError
| IndexError
| HTTPError
| ConnectionError
| JSONDecodeError
| OSError
| InvalidRequestError (message : string)
| AuthenticationError (message : string).

(** The outcome of evaluating a Python expression or statement. *)
Inductive result (A : Type) : Type :=
| Ok (a : A)
| Raise (e : exn).
Arguments Ok {A} a.
Arguments Raise {A} e.

Definition bind {A B : Type} (m : result A) (k : A -> result B) : result B :=
  match m with
  | Ok a => k a
  | Raise e => Raise e
  end.

Notation "'let*' x ':=' m 'in' k" := (bind m (fun x => k))
  (at level 10, x pattern, m at level 100, k at level 200).

(** [d[k]] on the entries of a dict. *)
Fixpoint dict_get (entries : list (string * pyval)) (k : string) : option pyval :=
  match entries with
  | [] => None
  | (k', v) :: rest => if String.eqb k' k then Some v else dict_get rest k
  end.

(** [v[k]] for a string key [k]: only a dict accepts it. *)
Definition getitem (v : pyval) (k : string) : result pyval :=
  match v with
  | PDict entries =>
      match dict_get entries k with
      | Some x => Ok x
      | None => Raise (KeyError (PStr k))
      end
  | _ => Raise TypeError
  end.

Definition is_str (k : string) (v : pyval) : bool :=
  match v with
  | PStr s => String.eqb s k
  | _ => false
  end.

Fixpoint is_substring (k s : string) : bool :=
  String.prefix k s ||
  match s with
  | EmptyString => false
  | String _ s' => is_substring k s'
  end.

(** [k in v] for a string [k]: key of a dict, element of a list, substring
    of a string; anything else is not iterable. *)
Definition contains (k : string) (v : pyval) : result bool :=
  match v with
  | PDict entries => Ok (bool_decide (is_Some (dict_get entries k)))
  | PList items => Ok (existsb (is_str k) items)
  | PStr s => Ok (is_substring k s)
  | _ => Raise TypeError
  end.

Fixpoint chars (s : string) : list pyval :=
  match s with
  | EmptyString => []
  | String c s' => PStr (String c EmptyString) :: chars s'
  end.

(** The elements a [for] loop over [v] visits. *)
Definition iter (v : pyval) : result (list pyval) :=
  match v with
  | PList items => Ok items
  | PDict entries => Ok (map (fun kv => PStr (fst kv)) entries)
  | PStr s => Ok (chars s)
  | _ => Raise TypeError
  end.

(** [s.split(sep)] for a one-character separator. *)
Fixpoint split (sep : ascii) (s : string) : list string :=
  match s with
  | EmptyString => [EmptyString]
  | String c s' =>
      if Ascii.eqb c sep then EmptyString :: split sep s'
      else match split sep s' with
           | piece :: pieces => String c piece :: pieces
           | [] => [String c EmptyString]
           end
  end.

(** ** [datetime] *)

(** A [datetime]: its wall-clock fields as microseconds since 0001-01-01,
    and the UTC offset of its [tzinfo] in microseconds, absent for a naive
    value. *)
Record py_datetime : Type := mk_datetime {
  wall : Z;
  utcoffset : option Z
}.

Definition is_aware (d : py_datetime) : bool :=
  match utcoffset d with
  | Some _ => true
  | None => false
  end.

(** The point on the time line that comparisons look at. *)
Definition instant (d : py_datetime) : Z :=
  (wall d - default 0 (utcoffset d))%Z.

(** [a > b]: naive against naive and aware against aware compare; a mixed
    pair raises [TypeError]. *)
Definition datetime_gt (a b : py_datetime) : result bool :=
  if Bool.eqb (is_aware a) (is_aware b)
  then Ok (instant b <? instant a)%Z
  else Raise TypeError.

(** [a > b] where either side may be [None]. *)
Definition py_gt (a b : option py_datetime) : result bool :=
  match a, b with
  | Some x, Some y => datetime_gt x y
  | _, _ => Raise TypeError
  end.

(** ** A parser for the timestamps of the fixtures

    [datetime.fromisoformat] belongs to the Python library; the client is
    verified for any parser.  [fromisoformat_basic] reads the one format
    the carrier sends, [YYYY-MM-DDTHH:MM:SS] with an optional [+HH:MM] or
    [-HH:MM], and serves the examples. *)

Definition digit (c : ascii) : option Z :=
  let n := nat_of_ascii c in
  if (48 <=? n)%nat && (n <=? 57)%nat then Some (Z.of_nat (n - 48)) else None.

Fixpoint number_from (acc : Z) (cs : list ascii) : option Z :=
  match cs with
  | [] => Some acc
  | c :: rest =>
      match digit c with
      | Some d => number_from (10 * acc + d)%Z rest
      | None => None
      end
  end.

Definition field (s : string) (start len : nat) : option Z :=
  let cs := take len (drop start (list_ascii_of_string s)) in
  if (length cs =? len)%nat then number_from 0%Z cs else None.

Definition char_at (s : string) (i : nat) : option ascii :=
  String.get i s.

Definition is_leap (y : Z) : bool :=
  ((y mod 4 =? 0) && (negb (y mod 100 =? 0) || (y mod 400 =? 0)))%Z.

Definition days_in_month (y m : Z) : Z :=
  (if m =? 2 then (if is_leap y then 29 else 28)
   else if (m =? 4) || (m =? 6) || (m =? 9) || (m =? 11) then 30 else 31)%Z.

Definition days_before_month (y m : Z) : Z :=
  let table := [0; 31; 59; 90; 120; 151; 181; 212; 243; 273; 304; 334]%Z in
  (nth (Z.to_nat (m - 1)) table 0 +
   (if (2 <? m) && is_leap y then 1 else 0))%Z.

Definition days_before_year (y : Z) : Z :=
  let p := (y - 1)%Z in
  (p * 365 + p / 4 - p / 100 + p / 400)%Z.

Definition in_range (lo x hi : Z) : bool := ((lo <=? x) && (x <=? hi))%Z.

Definition wall_of (y m d hh mm ss : Z) : option Z :=
  if in_range 1 y 9999 && in_range 1 m 12 && in_range 1 d (days_in_month y m)
     && in_range 0 hh 23 && in_range 0 mm 59 && in_range 0 ss 59
  then Some (((((days_before_year y + days_before_month y m + (d - 1)) * 24
               + hh) * 60 + mm) * 60 + ss) * 1000000)%Z
  else None.

Definition offset_of (sign : ascii) (hh mm : Z) : option Z :=
  if in_range 0 hh 23 && in_range 0 mm 59
  then let magnitude := ((hh * 60 + mm) * 60 * 1000000)%Z in
       if Ascii.eqb sign "+"%char then Some magnitude
       else if Ascii.eqb sign "-"%char then Some (- magnitude)%Z
       else None
  else None.

Definition fromisoformat_basic (s : string) : option py_datetime :=
  y ← field s 0 4; m ← field s 5 2; d ← field s 8 2;
  hh ← field s 11 2; mm ← field s 14 2; ss ← field s 17 2;
  w ← wall_of y m d hh mm ss;
  if bool_decide (char_at s 4 = Some "-"%char ∧ char_at s 7 = Some "-"%char ∧
                  char_at s 10 = Some "T"%char ∧ char_at s 13 = Some ":"%char ∧
                  char_at s 16 = Some ":"%char)
  then
    if (String.length s =? 19)%nat then Some (mk_datetime w None)
    else if (String.length s =? 25)%nat
         then sign ← char_at s 19; oh ← field s 20 2; om ← field s 23 2;
              if bool_decide (char_at s 22 = Some ":"%char)
              then off ← offset_of sign oh om; Some (mk_datetime w (Some off))
              else None
         else None
  else None.


(** ** Domain model *)

Inductive Event : Type :=
| ACTUAL_DELIVERY
| ACTUAL_PICKUP
| ACTUAL_TENDER
| ANTICIPATED_TENDER
| APPOINTMENT_DELIVERY
| ATTEMPTED_DELIVERY
| COMMITMENT
| ESTIMATED_ARRIVAL_AT_GATEWAY
| ESTIMATED_DELIVERY
| ESTIMATED_PICKUP
| ESTIMATED_RETURN_TO_STATION
| SHIP
| SHIPMENT_DATA_RECEIVED.

(** The members of the enumeration by name, in declaration order. *)
Definition Event_members : list (string * Event) :=
  [ ("ACTUAL_DELIVERY", ACTUAL_DELIVERY);
    ("ACTUAL_PICKUP", ACTUAL_PICKUP);
    ("ACTUAL_TENDER", ACTUAL_TENDER);
    ("ANTICIPATED_TENDER", ANTICIPATED_TENDER);
    ("APPOINTMENT_DELIVERY", APPOINTMENT_DELIVERY);
    ("ATTEMPTED_DELIVERY", ATTEMPTED_DELIVERY);
    ("COMMITMENT", COMMITMENT);
    ("ESTIMATED_ARRIVAL_AT_GATEWAY", ESTIMATED_ARRIVAL_AT_GATEWAY);
    ("ESTIMATED_DELIVERY", ESTIMATED_DELIVERY);
    ("ESTIMATED_PICKUP", ESTIMATED_PICKUP);
    ("ESTIMATED_RETURN_TO_STATION", ESTIMATED_RETURN_TO_STATION);
    ("SHIP", SHIP);
    ("SHIPMENT_DATA_RECEIVED", SHIPMENT_DATA_RECEIVED) ].

Fixpoint member_named {A : Type} (members : list (string * A)) (name : string)
  : option A :=
  match members with
  | [] => None
  | (n, m) :: rest => if String.eqb n name then Some m else member_named rest name
  end.

(** [Event[name]]: the member of that name; a name that is no member is a
    [KeyError], a list or dict is unhashable. *)
Definition Event_getitem (name : pyval) : result Event :=
  match name with
  | PStr s =>
      match member_named Event_members s with
      | Some e => Ok e
      | None => Raise (KeyError name)
      end
  | PList _ | PDict _ => Raise TypeError
  | _ => Raise (KeyError name)
  end.

Inductive PackageType : Type :=
| BAG | BARREL | BASKET | BOX | BUCKET | BUNDLE | CAGE | CARTON | CASE | CHEST
| CONTAINER | CRATE | CYLINDER | DRUM | ENVELOPE | HAMPER | OTHER | PACKAGE
| PAIL | PALLET | PARCEL | PIECE | REEL | ROLL | SACK | SHRINK_WRAPPED | SKID
| TANK | TOTE_BIN | TUBE | UNIT.

(** The dataclasses.  Python lets every field be [None], and the client
    builds [DateAndTimeEvent(None, None)] for a block without events. *)
Record DateAndTimeEvent : Type := mk_DateAndTimeEvent {
  datetime : option py_datetime;
  type : option Event
}.

Record Package : Type := mk_Package {
  package_type : PackageType;
  count : Z
}.

Record TrackingResult : Type := mk_TrackingResult {
  is_valid : bool;
  tracking_number : pyval;
  unique_id : pyval;
  carrier_code : pyval;
  is_delivered : option bool;
  is_shipped : option bool;
  date_ship : option py_datetime;
  date_delivery : option py_datetime;
  latest_status : option DateAndTimeEvent;
  events : option (list DateAndTimeEvent);
  package : option Package
}.

(** [TrackingResult(valid)]: every other field keeps its default [None]. *)
Definition TrackingResult_init (valid : bool) : TrackingResult :=
  mk_TrackingResult valid PNone PNone PNone None None None None None None None.

(** ** The event loop of [track_by_number] (lines 168-207) *)

(** The local variables the loop over a block's events maintains. *)
Record locals : Type := mk_locals {
  shipped : bool;
  delivered : bool;
  ship_date : option py_datetime;
  delivery_date : option py_datetime;
  latest_date : option py_datetime;
  latest_type : option Event;
  seen : list DateAndTimeEvent
}.

Definition initial : locals :=
  mk_locals false false None None None None [].

(** Lines 180-187: the [if]/[elif] chain on the event's type. *)
Definition classify (st : locals) (event_type : Event) (event_date : py_datetime)
  : locals :=
  match event_type with
  | SHIP =>
      mk_locals true (delivered st) (Some event_date) (delivery_date st)
                (latest_date st) (latest_type st) (seen st)
  | ACTUAL_DELIVERY =>
      mk_locals (shipped st) true (ship_date st) (Some event_date)
                (latest_date st) (latest_type st) (seen st)
  | ESTIMATED_DELIVERY =>
      mk_locals (shipped st) (delivered st) (ship_date st) (Some event_date)
                (latest_date st) (latest_type st) (seen st)
  | _ => st
  end.

(** Line 188: [latest_type is None or event_date > latest_date]. *)
Definition is_newer (st : locals) (event_date : py_datetime) : result bool :=
  match latest_type st with
  | None => Ok true
  | Some _ => py_gt (Some event_date) (latest_date st)
  end.

(** [DateAndTimeEvent(event_date, event_type)] *)
Definition new_event (event : Event * py_datetime) : DateAndTimeEvent :=
  mk_DateAndTimeEvent (Some (snd event)) (Some (fst event)).

(** Lines 180-192: one iteration, on a decoded event. *)
Definition loop_body (st : locals) (event : Event * py_datetime) : result locals :=
  let event_type := fst event in
  let event_date := snd event in
  let st := classify st event_type event_date in
  let* newer := is_newer st event_date in
  let st :=
    if newer
    then mk_locals (shipped st) (delivered st) (ship_date st) (delivery_date st)
                   (Some event_date) (Some event_type) (seen st)
    else st in
  Ok (mk_locals (shipped st) (delivered st) (ship_date st) (delivery_date st)
                (latest_date st) (latest_type st) (seen st ++ [new_event event])).

(** The [for] loop of line 177, over items that [decode] turns into events;
    the first fault ends it. *)
Fixpoint for_events {X : Type} (decode : X -> result (Event * py_datetime))
  (st : locals) (items : list X) : result locals :=
  match items with
  | [] => Ok st
  | item :: rest =>
      let* event := decode item in
      let* st := loop_body st event in
      for_events decode st rest
  end.

(** The identifiers of a block (lines 164-167). *)
Record identifiers : Type := mk_identifiers {
  id_tracking_number : pyval;
  id_unique_id : pyval;
  id_carrier_code : pyval
}.

(** Lines 193-206: the result assembled after the loop. *)
Definition assemble (ids : identifiers) (st : locals) : TrackingResult :=
  let latest_event := mk_DateAndTimeEvent (latest_date st) (latest_type st) in
  mk_TrackingResult true (id_tracking_number ids) (id_unique_id ids)
    (id_carrier_code ids) (Some (delivered st)) (Some (shipped st))
    (ship_date st) (delivery_date st) (Some latest_event) (Some (seen st)) None.

(** The normaliser: the loop and the assembly on events already decoded. *)
Definition normalize (ids : identifiers) (evs : list (Event * py_datetime))
  : result TrackingResult :=
  let* st := for_events Ok initial evs in
  Ok (assemble ids st).

(** ** The resolver of [track_by_number] (lines 209-215) *)

Definition get_latest_status (r : TrackingResult) : result DateAndTimeEvent :=
  match latest_status r with
  | Some e => Ok e
  | None => Raise AttributeError
  end.

(** One iteration of the loop of line 211 on the pair
    [(latest_date, latest_result)]. *)
Definition resolve_step (st : option py_datetime * option TrackingResult)
  (r : TrackingResult) : result (option py_datetime * option TrackingResult) :=
  let '(latest_date, latest_result) := st in
  let* status := get_latest_status r in
  let* newer :=
    match latest_result with
    | None => Ok true
    | Some _ => py_gt (datetime status) latest_date
    end in
  if newer then Ok (datetime status, Some r) else Ok st.

Fixpoint resolve_from (st : option py_datetime * option TrackingResult)
  (tracking_results : list TrackingResult)
  : result (option py_datetime * option TrackingResult) :=
  match tracking_results with
  | [] => Ok st
  | r :: rest => let* st := resolve_step st r in resolve_from st rest
  end.

(** The value returned at line 215: a result, or [None]. *)
Definition resolve (tracking_results : list TrackingResult)
  : result (option TrackingResult) :=
  let* st := resolve_from (None, None) tracking_results in
  Ok (snd st).

(** ** The transport and its effects *)

(** What [requests.request] gives for the tracking query: no response at
    all, or a status code and a body that may not be JSON. *)
Inductive reply : Type :=
| Unreachable
| Response (status_code : Z) (body : option pyval).

(** What [requests.get] gives for a document: no response, or a status
    code and the chunks of the content. *)
Inductive download : Type :=
| DownloadUnreachable
| Download (status_code : Z) (chunks : list string).

(** What the file system does with [open(filename, 'wb')] and the writes
    that follow: the open fails; or the file is created and takes every
    chunk ([room = None]); or it takes [n] chunks and the next write fails
    ([room = Some n]). *)
Inductive file_access : Type :=
| Unwritable
| Writable (room : option nat).

(** The chunks that reach the file, and whether all of them do. *)
Definition written (room : option nat) (chunks : list string) : list string :=
  match room with
  | None => chunks
  | Some n => take n chunks
  end.

Definition complete (room : option nat) (chunks : list string) : bool :=
  match room with
  | None => true
  | Some n => (length chunks <=? n)%nat
  end.

(** The network and the file system as the client sees them. *)
Record World : Type := mk_World {
  post : string -> string -> string -> reply;
  get : string -> download;
  access : string -> file_access
}.

(** The effects a method performs, in order.  [Wrote filename chunks]: the
    file was opened for writing, which creates or empties it, and received
    these chunks. *)
Inductive io_action : Type :=
| Posted (url number : string)
| Fetched (url : string)
| Wrote (filename : string) (chunks : list string).

(** A computation with effects: its outcome and the effects performed. *)
Definition io (A : Type) : Type := (result A * list io_action)%type.

Definition io_ret {A : Type} (a : A) : io A := (Ok a, []).
Definition io_raise {A : Type} (e : exn) : io A := (Raise e, []).

Definition io_bind {A B : Type} (m : io A) (k : A -> io B) : io B :=
  match m with
  | (Ok a, log) => let '(r, log') := k a in (r, log ++ log')
  | (Raise e, log) => (Raise e, log)
  end.

Notation "'do*' x ':=' m 'in' k" := (io_bind m (fun x => k))
  (at level 10, x pattern, m at level 100, k at level 200).

(** [response.raise_for_status()] *)
Definition raise_for_status (status_code : Z) : result unit :=
  if ((400 <=? status_code) && (status_code <? 600))%Z
  then Raise HTTPError else Ok tt.

(** [response.json()] *)
Definition json (body : option pyval) : result pyval :=
  match body with
  | Some v => Ok v
  | None => Raise JSONDecodeError
  end.

Record FedexAPI : Type := mk_FedexAPI {
  API_URL : string;
  AUTH_URL : string;
  TRACK_URL : string;
  API_KEY : string;
  SECRET_KEY : string;
  AUTH_KEY : string
}.

(** How a loop body leaves: on to the next iteration, or out of
    [track_by_number] by a [return]. *)
Inductive flow (A : Type) : Type :=
| Continue (a : A)
| Return (r : TrackingResult).
Arguments Continue {A} a.
Arguments Return {A} r.

(** ** [FedexAPI.track_by_number] *)

Section Client.

(** [datetime.fromisoformat] on a string: a datetime, or [ValueError]. *)
Variable fromisoformat : string -> option py_datetime.

Definition parse_datetime (v : pyval) : result py_datetime :=
  match v with
  | PStr s =>
      match fromisoformat s with
      | Some d => Ok d
      | None => Raise ValueError
      end
  | _ => Raise TypeError
  end.

(** Lines 178-179. *)
Definition decode_event (event : pyval) : result (Event * py_datetime) :=
  let* name := getitem event "type" in
  let* event_type := Event_getitem name in
  let* text := getitem event "dateTime" in
  let* event_date := parse_datetime text in
  Ok (event_type, event_date).

(** Lines 164-167. *)
Definition read_identifiers (tracking_result : pyval) : result identifiers :=
  let* tracking_number_info := getitem tracking_result "trackingNumberInfo" in
  let* tracking_number := getitem tracking_number_info "trackingNumber" in
  let* unique_id := getitem tracking_number_info "trackingNumberUniqueId" in
  let* carrier_code := getitem tracking_number_info "carrierCode" in
  Ok (mk_identifiers tracking_number unique_id carrier_code).

(** Lines 164-207: one result block. *)
Definition track_result (tracking_result : pyval) : result (flow TrackingResult) :=
  let* ids := read_identifiers tracking_result in
  let* present := contains "dateAndTimes" tracking_result in
  if negb present then Ok (Return (TrackingResult_init false))
  else
    let* date_and_times := getitem tracking_result "dateAndTimes" in
    let* items := iter date_and_times in
    let* st := for_events decode_event initial items in
    Ok (Continue (assemble ids st)).

(** The loop of line 163. *)
Fixpoint for_track_results (tracking_results : list TrackingResult)
  (blocks : list pyval) : result (flow (list TrackingResult)) :=
  match blocks with
  | [] => Ok (Continue tracking_results)
  | tracking_result :: rest =>
      let* step := track_result tracking_result in
      match step with
      | Return r => Ok (Return r)
      | Continue new_tracking_result =>
          for_track_results (tracking_results ++ [new_tracking_result]) rest
      end
  end.

(** The loop of line 161. *)
Fixpoint for_complete_track_results (tracking_results : list TrackingResult)
  (groups : list pyval) : result (flow (list TrackingResult)) :=
  match groups with
  | [] => Ok (Continue tracking_results)
  | track_index :: rest =>
      let* track_results := getitem track_index "trackResults" in
      let* blocks := iter track_results in
      let* step := for_track_results tracking_results blocks in
      match step with
      | Return r => Ok (Return r)
      | Continue tracking_results => for_complete_track_results tracking_results rest
      end
  end.

(** Lines 153-215: what the method does with the transport's answer. *)
Definition track_response (response : reply) : result (option TrackingResult) :=
  match response with
  | Unreachable => Raise ConnectionError
  | Response status_code body =>
      match raise_for_status status_code with
      | Raise HTTPError => Ok (Some (TrackingResult_init false))
      | Raise e => Raise e
      | Ok _ =>
          let* response_data := json body in
          let* failed := contains "errors" response_data in
          if failed then Ok (Some (TrackingResult_init false))
          else
            let* output := getitem response_data "output" in
            let* complete := getitem output "completeTrackResults" in
            let* groups := iter complete in
            let* step := for_complete_track_results [] groups in
            match step with
            | Return r => Ok (Some r)
            | Continue tracking_results => resolve tracking_results
            end
      end
  end.

Definition track_by_number (self : FedexAPI) (w : World) (number : string)
  : io (option TrackingResult) :=
  let response := post w (TRACK_URL self) (AUTH_KEY self) number in
  (track_response response, [Posted (TRACK_URL self) number]).

(** ** [_download_file] and [FedexAPI.download_pod] *)

Definition _download_file (w : World) (url filename : string) : io string :=
  match get w url with
  | DownloadUnreachable => (Raise ConnectionError, [Fetched url])
  | Download status_code chunks =>
      match raise_for_status status_code with
      | Raise e => (Raise e, [Fetched url])
      | Ok _ =>
          match access w filename with
          | Unwritable => (Raise OSError, [Fetched url])
          | Writable room =>
              (if complete room chunks then Ok filename else Raise OSError,
               [Fetched url; Wrote filename (written room chunks)])
          end
      end
  end.

Definition pod_url (tracking_number qualifier : string) : string :=
  "https://www.fedex.com/trackingCal/retrievePDF.jsp?accountNbr=&anon=true&appType=&destCountry=&locale=en_US&shipDate=&trackingCarrier=FDXA&trackingNumber="
  ++ tracking_number ++ "&trackingQualifier=" ++ qualifier ++ "&type=SPOD".

Definition invalid_request (unique_id : string) : exn :=
  InvalidRequestError
    (String (ascii_of_nat 10) "Invalid request for tracking number: " ++ unique_id).

(** Lines 218-222: a bare tracking number is resolved by a query.  The
    argument [unique_id] of the method is [identifier] here, the field of
    the result keeps the name. *)
Definition resolve_identifier (self : FedexAPI) (w : World) (identifier : string)
  : io pyval :=
  if (length (split "~" identifier) =? 1)%nat
  then
    do* result := track_by_number self w identifier in
    match result with
    | None => io_raise AttributeError
    | Some result =>
        if negb (is_valid result) then io_raise (invalid_request identifier)
        else io_ret (unique_id result)
    end
  else io_ret (PStr identifier).

(** Lines 223-227. *)
Definition fetch_pod (w : World) (resolved : pyval) (new_filename : string)
  : io unit :=
  match resolved with
  | PStr identifier =>
      match split "~" identifier !! 0%nat, split "~" identifier !! 1%nat with
      | Some qualifier, Some tracking_number =>
          do* _ := _download_file w (pod_url tracking_number qualifier) new_filename in
          io_ret tt
      | _, _ => io_raise IndexError
      end
  | _ => io_raise AttributeError
  end.

Definition download_pod (self : FedexAPI) (w : World)
  (identifier new_filename : string) : io unit :=
  do* resolved := resolve_identifier self w identifier in
  fetch_pod w resolved new_filename.

End Client.

(** ** Vocabulary of the properties *)

(** All timestamps of a sequence are aware ([aw = true]) or all are naive
    ([aw = false]): Python compares no other sequences. *)
Definition same_awareness (aw : bool) (evs : list (Event * py_datetime)) : Prop :=
  Forall (fun e => is_aware (snd e) = aw) evs.

(** [m] sits at position [i] of [l], no element of [l] has a larger key,
    and every element before position [i] has a strictly smaller one. *)
Definition is_first_max {X : Type} (key : X -> Z) (l : list X) (i : nat) (m : X)
  : Prop :=
  l !! i = Some m /\
  (forall j x, l !! j = Some x -> (key x <= key m)%Z) /\
  (forall j x, (j < i)%nat -> l !! j = Some x -> (key x < key m)%Z).

(** A scan that replaces its candidate only by a strictly larger key. *)
Fixpoint first_max {X : Type} (key : X -> Z) (best : X) (l : list X) : X :=
  match l with
  | [] => best
  | x :: rest => first_max key (if (key best <? key x)%Z then x else best) rest
  end.

(** [result.latest_status.datetime] when both attributes are there. *)
Definition latest_datetime (r : TrackingResult) : option py_datetime :=
  match latest_status r with
  | Some status => datetime status
  | None => None
  end.

(** The instant of a result's latest status, the key the resolver compares. *)
Definition result_instant (r : TrackingResult) : Z :=
  match latest_datetime r with
  | Some d => instant d
  | None => 0%Z
  end.

(** Every result has a latest timestamp, all of them aware or all naive:
    what normalising non-empty comparable event sequences produces. *)
Definition comparable_results (aw : bool) (rs : list TrackingResult) : Prop :=
  Forall (fun r => exists d, latest_datetime r = Some d /\ is_aware d = aw) rs.

(** The events whose type writes [delivery_date]. *)
Definition writes_delivery_date (e : Event * py_datetime) : bool :=
  match fst e with
  | ACTUAL_DELIVERY | ESTIMATED_DELIVERY => true
  | _ => false
  end.

Definition is_actual_delivery (e : Event * py_datetime) : bool :=
  match fst e with
  | ACTUAL_DELIVERY => true
  | _ => false
  end.

(** The key both scans compare: the instant of an event's timestamp. *)
Definition event_instant (e : Event * py_datetime) : Z := instant (snd e).

(** Decoding every item of a block's event list, first fault first. *)
Fixpoint decode_all {X : Type} (decode : X -> result (Event * py_datetime))
  (items : list X) : result (list (Event * py_datetime)) :=
  match items with
  | [] => Ok []
  | item :: rest =>
      let* e := decode item in
      let* es := decode_all decode rest in
      Ok (e :: es)
  end.

(** Decoding [response_data] arrives at [block] with [tracking_results]
    collected: every group and block before it went through without a
    fault and without a [return]. *)
Definition reaches (fromisoformat : string -> option py_datetime)
  (response_data block : pyval) (tracking_results : list TrackingResult) : Prop :=
  exists output complete groups_before track_index groups_after
         collected track_results blocks_before blocks_after,
    getitem response_data "output" = Ok output /\
    getitem output "completeTrackResults" = Ok complete /\
    iter complete = Ok (groups_before ++ track_index :: groups_after) /\
    for_complete_track_results fromisoformat [] groups_before
      = Ok (Continue collected) /\
    getitem track_index "trackResults" = Ok track_results /\
    iter track_results = Ok (blocks_before ++ block :: blocks_after) /\
    for_track_results fromisoformat collected blocks_before
      = Ok (Continue tracking_results).

(** Decoding [response_data] arrives at [event]: it reaches the event's
    block, the block has its identifiers and its event list, and every
    event before [event] in that list went through the loop without a
    fault. *)
Definition reaches_event (fromisoformat : string -> option py_datetime)
  (response_data event : pyval) : Prop :=
  exists block tracking_results ids date_and_times events_before events_after st,
    reaches fromisoformat response_data block tracking_results /\
    read_identifiers block = Ok ids /\
    getitem block "dateAndTimes" = Ok date_and_times /\
    iter date_and_times = Ok (events_before ++ event :: events_after) /\
    for_events (decode_event fromisoformat) initial events_before = Ok st.

(** The three situations in which the query is answered by an invalid
    result: an HTTP status failure, an ["errors"] key in the body, and a
    block reached by decoding that has its identifiers but no
    ["dateAndTimes"]. *)
Inductive invalid_scenario (fromisoformat : string -> option py_datetime)
  : reply -> Prop :=
| http_status_failure status_code body :
    raise_for_status status_code = Raise HTTPError ->
    invalid_scenario fromisoformat (Response status_code body)
| application_error status_code response_data :
    raise_for_status status_code = Ok tt ->
    contains "errors" response_data = Ok true ->
    invalid_scenario fromisoformat (Response status_code (Some response_data))
| missing_events status_code response_data block tracking_results ids :
    raise_for_status status_code = Ok tt ->
    contains "errors" response_data = Ok false ->
    reaches fromisoformat response_data block tracking_results ->
    read_identifiers block = Ok ids ->
    contains "dateAndTimes" block = Ok false ->
    invalid_scenario fromisoformat (Response status_code (Some response_data)).

(** ** Fixtures *)

Definition aware_at (microseconds : Z) : py_datetime :=
  mk_datetime microseconds (Some 0%Z).

Definition sample_ids : identifiers :=
  mk_identifiers (PStr "794644790138") (PStr "2459545000~794644790138~FX")
                 (PStr "FDXE").

Definition sample_api : FedexAPI :=
  mk_FedexAPI "https://apis.fedex.com/" "https://apis.fedex.com/oauth/token"
              "https://apis.fedex.com/track/v1/trackingnumbers"
              "key" "secret" "token".

(** [{"type": kind, "dateTime": stamp}] *)
Definition raw_event (kind stamp : string) : pyval :=
  PDict [("type", PStr kind); ("dateTime", PStr stamp)].

Definition raw_info (number : string) : pyval :=
  PDict [("trackingNumber", PStr number);
         ("trackingNumberUniqueId", PStr ("2459545000~" ++ number ++ "~FX"));
         ("carrierCode", PStr "FDXE")].

(** A result block with its identifiers and an event list. *)
Definition block_with (number : string) (events : list pyval) : pyval :=
  PDict [("trackingNumberInfo", raw_info number); ("dateAndTimes", PList events)].

(** A result block with its identifiers and no event list. *)
Definition block_without_events (number : string) : pyval :=
  PDict [("trackingNumberInfo", raw_info number)].

Definition body_of (blocks : list pyval) : pyval :=
  PDict [("output",
          PDict [("completeTrackResults",
                  PList [PDict [("trackResults", PList blocks)]])])].

Definition delivered_block : pyval :=
  block_with "794644790138"
    [raw_event "SHIP" "2022-02-01T08:00:00+00:00";
     raw_event "ACTUAL_DELIVERY" "2022-02-05T14:30:00+00:00"].

Definition drifted_block : pyval :=
  block_with "794644790139"
    [raw_event "SHIP" "2022-02-01T08:00:00+00:00";
     raw_event "HELD_AT_CUSTOMS" "2022-02-03T09:15:00+00:00"].

(** Three events, the last two at the same instant. *)
Definition tied_events : list (Event * py_datetime) :=
  [(COMMITMENT, aware_at 5); (SHIP, aware_at 9); (ACTUAL_DELIVERY, aware_at 9)].

(** Events out of chronological order, one of them twice. *)
Definition unordered_events : list (Event * py_datetime) :=
  [(ESTIMATED_DELIVERY, aware_at 7); (SHIP, aware_at 2);
   (ESTIMATED_DELIVERY, aware_at 7); (ACTUAL_PICKUP, aware_at 1)].

(** A delivery followed, in the list, by an estimate of the delivery. *)
Definition estimate_after_delivery : list (Event * py_datetime) :=
  [(ACTUAL_DELIVERY, aware_at 5); (ESTIMATED_DELIVERY, aware_at 9)].

Definition estimate_after_delivery_block : pyval :=
  block_with "794644790138"
    [raw_event "ACTUAL_DELIVERY" "2022-02-05T14:30:00+00:00";
     raw_event "ESTIMATED_DELIVERY" "2022-02-06T12:00:00+00:00"].

(** A body without result blocks. *)
Definition empty_body : pyval :=
  PDict [("output", PDict [("completeTrackResults", PList [])])].

(** Midnight UTC of the [n]-th day of 2022. *)
Definition day_2022 (n : Z) : py_datetime :=
  aware_at ((738154 + n) * 86400000000)%Z.

(** A normalised result with one [SHIP] event at [d]. *)
Definition shipped_at (number : string) (d : py_datetime) : TrackingResult :=
  mk_TrackingResult true (PStr number) (PStr ("2459545000~" ++ number ++ "~FX"))
    (PStr "FDXE") (Some false) (Some true) (Some d) None
    (Some (mk_DateAndTimeEvent (Some d) (Some SHIP)))
    (Some [mk_DateAndTimeEvent (Some d) (Some SHIP)]) None.

(** Results whose latest timestamps are 2022-01-01, 2022-01-03, 2022-01-02. *)
Definition three_results : list TrackingResult :=
  [shipped_at "1" (day_2022 1); shipped_at "2" (day_2022 3);
   shipped_at "3" (day_2022 2)].

(** A block whose event has an unknown type, then a block without events. *)
Definition drift_then_missing : pyval :=
  body_of [drifted_block; block_without_events "794644790140"].

(** The same two blocks the other way round. *)
Definition missing_then_drift : pyval :=
  body_of [block_without_events "794644790140"; drifted_block].

(** A decodable block, then a block without events. *)
Definition delivered_then_missing : pyval :=
  body_of [delivered_block; block_without_events "794644790140"].

(** A network that answers every query with [r] and has no documents. *)
Definition answering (r : reply) : World :=
  mk_World (fun _ _ _ => r) (fun _ => Download 404 []) (fun _ => Writable None).

(** ** Vocabulary of the further properties *)

Definition is_ship (e : Event * py_datetime) : bool :=
  match fst e with
  | SHIP => true
  | _ => false
  end.

(** A [SHIP] after the delivery, and two estimates around a [SHIP]. *)
Definition reshipped_events : list (Event * py_datetime) :=
  [(SHIP, aware_at 1); (ACTUAL_DELIVERY, aware_at 6); (SHIP, aware_at 3)].

(** A naive timestamp among aware ones. *)
Definition mixed_events : list (Event * py_datetime) :=
  [(SHIP, aware_at 1); (COMMITMENT, aware_at 4);
   (ESTIMATED_DELIVERY, mk_datetime 9 None); (ACTUAL_DELIVERY, aware_at 10)].

(** The identifiers of the fixtures' results. *)
Definition ids_of (number : string) : identifiers :=
  mk_identifiers (PStr number) (PStr ("2459545000~" ++ number ++ "~FX"))
                 (PStr "FDXE").

(** A valid result as a block without events yields it. *)
Definition eventless_result (number : string) : TrackingResult :=
  mk_TrackingResult true (PStr number) (PStr ("2459545000~" ++ number ++ "~FX"))
    (PStr "FDXE") (Some false) (Some false) None None
    (Some (mk_DateAndTimeEvent None None)) (Some []) None.

(** The blocks of a group: [track_index["trackResults"]], iterated. *)
Definition group_blocks (track_index : pyval) (blocks : list pyval) : Prop :=
  exists track_results,
    getitem track_index "trackResults" = Ok track_results /\
    iter track_results = Ok blocks.

(** [block] has its identifiers and an event list that decodes, and the
    normaliser turns the decoded events into [r]. *)
Definition normalizes_to (fromisoformat : string -> option py_datetime)
  (block : pyval) (r : TrackingResult) : Prop :=
  exists ids date_and_times items evs,
    read_identifiers block = Ok ids /\
    getitem block "dateAndTimes" = Ok date_and_times /\
    iter date_and_times = Ok items /\
    decode_all (decode_event fromisoformat) items = Ok evs /\
    normalize ids evs = Ok r.

(** What the loop keeps true of its variables. *)
Definition coherent_locals (st : locals) : Prop :=
  (shipped st = true <-> is_Some (ship_date st)) /\
  (delivered st = true -> is_Some (delivery_date st)) /\
  (seen st = [] -> latest_date st = None /\ latest_type st = None) /\
  (seen st <> [] ->
   exists e, latest_date st = Some (snd e) /\ latest_type st = Some (fst e) /\
             new_event e ∈ seen st).

(** What holds of every valid result the query builds. *)
Definition coherent (r : TrackingResult) : Prop :=
  is_valid r = true /\ package r = None /\
  exists was_shipped was_delivered l status,
    is_shipped r = Some was_shipped /\ is_delivered r = Some was_delivered /\
    events r = Some l /\ latest_status r = Some status /\
    (was_shipped = true <-> is_Some (date_ship r)) /\
    (was_delivered = true -> is_Some (date_delivery r)) /\
    (l = [] -> datetime status = None /\ type status = None) /\
    (l <> [] -> is_Some (datetime status) /\ is_Some (type status) /\ status ∈ l).

Definition in_transit_block : pyval :=
  block_with "794644790142"
    [raw_event "SHIP" "2022-02-04T10:00:00+00:00";
     raw_event "ESTIMATED_DELIVERY" "2022-02-09T18:00:00+00:00"].

(** A body with two groups of one block each. *)
Definition two_group_body : pyval :=
  PDict [("output",
          PDict [("completeTrackResults",
                  PList [PDict [("trackResults", PList [delivered_block])];
                         PDict [("trackResults", PList [in_transit_block])]])])].

(** A block whose second event has a timestamp that is no ISO date. *)
Definition garbled_block : pyval :=
  block_with "794644790143"
    [raw_event "SHIP" "2022-02-01T08:00:00+00:00";
     raw_event "ACTUAL_DELIVERY" "yesterday"].

(** [member.value] of an [Event] member. *)
Definition Event_value (e : Event) : string :=
  match e with
  | ACTUAL_DELIVERY => "ACTUAL_DELIVERY"
  | ACTUAL_PICKUP => "ACTUAL_PICKUP"
  | ACTUAL_TENDER => "ACTUAL_TENDER"
  | ANTICIPATED_TENDER => "ANTICIPATED_TENDER"
  | APPOINTMENT_DELIVERY => "APPOINTMENT_DELIVERY"
  | ATTEMPTED_DELIVERY => "ATTEMPTED_DELIVERY"
  | COMMITMENT => "COMMITMENT"
  | ESTIMATED_ARRIVAL_AT_GATEWAY => "ESTIMATED_ARRIVAL_AT_GATEWAY"
  | ESTIMATED_DELIVERY => "ESTIMATED_DELIVERY"
  | ESTIMATED_PICKUP => "ESTIMATED_PICKUP"
  | ESTIMATED_RETURN_TO_STATION => "ESTIMATED_RETURN_TO_STATION"
  | SHIP => "SHIP"
  | SHIPMENT_DATA_RECEIVED => "SHIPMENT_DATA_RECEIVED"
  end.

(** A network that answers the tracking query with [r] and every document
    request with [d]. *)
Definition serving (r : reply) (d : download) : World :=
  mk_World (fun _ _ _ => r) (fun _ => d) (fun _ => Writable None).

(** The same network over a file system that takes one chunk per file. *)
Definition cramped : World :=
  mk_World (fun _ _ _ => Response 200 (Some (body_of [delivered_block])))
           (fun _ => Download 200 ["%PDF-1.4"; "%%EOF"])
           (fun _ => Writable (Some 1%nat)).

(** The same network over a file system that opens no file. *)
Definition read_only : World :=
  mk_World (fun _ _ _ => Response 200 (Some (body_of [delivered_block])))
           (fun _ => Download 200 ["%PDF-1.4"; "%%EOF"])
           (fun _ => Unwritable).

(** A network with the delivered block and a two-chunk document. *)
Definition delivering : World :=
  serving (Response 200 (Some (body_of [delivered_block])))
          (Download 200 ["%PDF-1.4"; "%%EOF"]).

(** ** [FedexAPI.__init__] (lines 125-143) *)

Definition API_AUTHORITY : string := "https://apis.fedex.com/".
Definition AUTH_PATH : string := "oauth/token".
Definition TRACK_PATH : string := "track/v1/trackingnumbers".

(** The attributes the constructor sets.  [AUTH_KEY] is whatever the
    response holds under ["access_token"]. *)
Record FedexAPI_attributes : Type := mk_FedexAPI_attributes {
  set_API_URL : string;
  set_AUTH_URL : string;
  set_TRACK_URL : string;
  set_API_KEY : string;
  set_SECRET_KEY : string;
  set_AUTH_KEY : pyval
}.

(** The effects of the constructor: the credentials posted to a URL, and
    the key printed. *)
Inductive init_action : Type :=
| Authenticated (url client_id client_secret : string)
| Printed (key : pyval).

Definition invalid_key : exn :=
  AuthenticationError (String (ascii_of_nat 10) "Invalid key supplied").

Definition invalid_authentication : exn :=
  AuthenticationError (String (ascii_of_nat 10) "Invalid authentication request.").

(** [FedexAPI(api_key, secret_key, api_authority, auth_path, track_path)];
    [auth] is what [requests.post] gives for a URL and the credentials.
    The [try] of lines 138-141 handles [IndexError] and nothing else. *)
Definition FedexAPI_init (auth : string -> string -> string -> reply)
  (api_key secret_key api_authority auth_path track_path : string)
  : result FedexAPI_attributes * list init_action :=
  if String.eqb secret_key "" || String.eqb api_key ""
  then (Raise invalid_key, [])
  else
    let auth_url := (api_authority ++ auth_path)%string in
    let track_url := (api_authority ++ track_path)%string in
    let sent := Authenticated auth_url api_key secret_key in
    match auth auth_url api_key secret_key with
    | Unreachable => (Raise ConnectionError, [sent])
    | Response _ body =>
        match (let* data := json body in getitem data "access_token") with
        | Raise IndexError => (Raise invalid_authentication, [sent])
        | Raise e => (Raise e, [sent])
        | Ok key =>
            (Ok (mk_FedexAPI_attributes api_authority auth_url track_url
                   api_key secret_key key),
             [sent; Printed key])
        end
    end.

(** An authentication service that rejects the credentials: status 401
    and a body without token. *)
Definition rejecting : string -> string -> string -> reply :=
  fun _ _ _ => Response 401 (Some (PDict [("errors", PList [])])).

(** One that sends a token with a failure status all the same. *)
Definition granting_with_failure_status : string -> string -> string -> reply :=
  fun _ _ _ => Response 503 (Some (PDict [("access_token", PStr "token")])).

(** ** The script [main.py]: [FedexAPI.trackbynumber] (lines 38-68) *)

Module Legacy.

(** The dataclass of [main.py]; [json] is the decoded body, or [""]. *)
Record Package : Type := mk_Package {
  isValid : bool;
  deliveryDate : string;
  shipDate : string;
  json : pyval
}.

(** The result of the [except:] branch. *)
Definition invalid_package : Package :=
  mk_Package false "Invalid Tracking Information" "Invalid Tracking Information"
             (PStr "").

(** The [try] catches every exception alike: a computation in it has a
    value or has none. *)
Definition caught {A : Type} (r : result A) : option A :=
  match r with
  | Ok a => Some a
  | Raise _ => None
  end.

(** [v[0]] *)
Definition first_item (v : pyval) : result pyval :=
  match v with
  | PList (x :: _) => Ok x
  | PList [] => Raise IndexError
  | PStr (String c _) => Ok (PStr (String c EmptyString))
  | PStr EmptyString => Raise IndexError
  | PDict _ => Raise (KeyError (PNum "0"))
  | _ => Raise TypeError
  end.

(** [s.find(c)] for a one-character [c]: the first position, if any. *)
Fixpoint find (c : ascii) (s : string) : option nat :=
  match s with
  | EmptyString => None
  | String c' s' => if Ascii.eqb c' c then Some 0%nat else S <$> find c s'
  end.

(** [s[:s.find("T")]]: up to the first [T]; without a [T] the index is
    [-1] and the slice drops the last character. *)
Definition until_T (s : string) : string :=
  match find "T" s with
  | Some i => String.substring 0 i s
  | None => String.substring 0 (String.length s - 1) s
  end.

(** The same on a value: only a string has [find]. *)
Definition cut (v : pyval) : option string :=
  match v with
  | PStr s => Some (until_T s)
  | _ => None
  end.

(** [trackrequest["output"]["completeTrackResults"][0]["trackResults"][0]] *)
Definition first_block (data : pyval) : result pyval :=
  let* output := getitem data "output" in
  let* complete := getitem output "completeTrackResults" in
  let* group := first_item complete in
  let* track_results := getitem group "trackResults" in
  first_item track_results.

(** [...["latestStatusDetail"]["code"]] of line 52. *)
Definition status_code_of (data : pyval) : option pyval :=
  caught (let* block := first_block data in
          let* detail := getitem block "latestStatusDetail" in
          getitem detail "code").

(** The entries the loop of line 56 visits. *)
Definition entries_of (data : pyval) : option (list pyval) :=
  caught (let* block := first_block data in
          let* date_and_times := getitem block "dateAndTimes" in
          iter date_and_times).

(** Lines 56-60, on the variables [ship] and [deliverDate]; the latter is
    unbound until an [ACTUAL_DELIVERY] entry binds it. *)
Fixpoint scan (entries : list pyval) (ship : pyval) (deliverDate : option pyval)
  : option (pyval * option pyval) :=
  match entries with
  | [] => Some (ship, deliverDate)
  | entry :: rest =>
      kind ← caught (getitem entry "type");
      ship ← (if is_str "SHIP" kind then caught (getitem entry "dateTime")
              else Some ship);
      kind ← caught (getitem entry "type");
      deliverDate ← (if is_str "ACTUAL_DELIVERY" kind
                     then Some <$> caught (getitem entry "dateTime")
                     else Some deliverDate);
      scan rest ship deliverDate
  end.

Section Script.

(** [date.fromisoformat(s).strftime("%m/%d/%Y")], or nothing when
    [fromisoformat] rejects [s]. *)
Variable reformat : string -> option string.

(** The body of the [try] for a response and the number asked for: the
    package, if no exception occurred, and the numbers warned about. *)
Definition attempt (body : option pyval) (number : string)
  : option Package * list string :=
  match body with
  | None => (None, [])
  | Some trackrequest =>
      match status_code_of trackrequest with
      | None => (None, [])
      | Some code =>
          (entries ← entries_of trackrequest;
           scanned ← scan entries (PStr "Unavailable") None;
           ship ← cut (fst scanned);
           deliverDate ← snd scanned ≫= cut;
           delivery ← reformat deliverDate;
           shipping ← reformat ship;
           Some (mk_Package true delivery shipping trackrequest),
           if is_str "DL" code then [] else [number])
      end
  end.

(** Lines 47-68, from the answer of the transport on; the request itself
    is outside the [try]. *)
Definition trackbynumber (response : reply) (number : string)
  : result Package * list string :=
  match response with
  | Unreachable => (Raise ConnectionError, [])
  | Response _ body =>
      match attempt body number with
      | (Some trackresult, warned) => (Ok trackresult, warned)
      | (None, warned) => (Ok invalid_package, warned)
      end
  end.

End Script.

(** The [dateTime] of the last entry of [entries] whose type is [kind]. *)
Fixpoint last_dateTime (kind : string) (entries : list pyval) (seen : option pyval)
  : option pyval :=
  match entries with
  | [] => seen
  | entry :: rest =>
      last_dateTime kind rest
        (match getitem entry "type" with
         | Ok t => if is_str kind t then caught (getitem entry "dateTime") else seen
         | Raise _ => seen
         end)
  end.

(** An entry that has a type, and a timestamp if the loop reads it. *)
Definition readable (entry : pyval) : Prop :=
  exists t d, getitem entry "type" = Ok t /\ getitem entry "dateTime" = Ok d.

(** A body in the shape the script reads: one block with a status code
    and entries. *)
Definition body_with (code : string) (entries : list pyval) : pyval :=
  PDict [("output",
          PDict [("completeTrackResults",
                  PList [PDict [("trackResults",
                    PList [PDict [("latestStatusDetail",
                                   PDict [("code", PStr code)]);
                                  ("dateAndTimes", PList entries)]])]])])].

(** A formatter for the fixtures: [YYYY-MM-DD] to [MM/DD/YYYY]. *)
Definition reformat_basic (s : string) : option string :=
  match fromisoformat_basic (s ++ "T00:00:00")%string with
  | Some _ =>
      if (String.length s =? 10)%nat
      then Some (String.substring 5 2 s ++ "/" ++ String.substring 8 2 s ++ "/"
                 ++ String.substring 0 4 s)%string
      else None
  | None => None
  end.

End Legacy.

(** Entries of a delivered shipment, the shipping one twice. *)
Definition legacy_entries : list pyval :=
  [raw_event "SHIP" "2022-01-30T07:00:00+00:00";
   raw_event "ACTUAL_DELIVERY" "2022-02-05T14:30:00+00:00";
   raw_event "SHIP" "2022-02-01T08:00:00+00:00"].

(** * Properties *)

(** ** The first maximum of a scan *)

Section FirstMax.
Context {X : Type} (key : X -> Z).

Lemma is_first_max_snoc_newer (pre : list X) (i : nat) (b x : X) :
  is_first_max key pre i b -> (key b < key x)%Z ->
  is_first_max key (pre ++ [x]) (length pre) x.
Proof.
  intros (Hi & Hmax & _) Hlt. split; [|split].
  - apply lookup_snoc_Some. right. done.
  - intros j y Hj. apply lookup_snoc_Some in Hj as [[_ Hj]|[_ ->]]; [|lia].
    specialize (Hmax _ _ Hj). lia.
  - intros j y Hj Hy. rewrite lookup_app_l in Hy by done.
    specialize (Hmax _ _ Hy). lia.
Qed.

Lemma is_first_max_snoc_kept (pre : list X) (i : nat) (b x : X) :
  is_first_max key pre i b -> (key x <= key b)%Z ->
  is_first_max key (pre ++ [x]) i b.
Proof.
  intros (Hi & Hmax & Hfirst) Hle.
  pose proof (lookup_lt_Some _ _ _ Hi) as Hlen. split; [|split].
  - rewrite lookup_app_l by done. done.
  - intros j y Hj. apply lookup_snoc_Some in Hj as [[_ Hj]|[_ ->]]; [|done].
    eauto.
  - intros j y Hj Hy. rewrite lookup_app_l in Hy by lia. eauto.
Qed.

Lemma first_max_extend (l pre : list X) (i : nat) (b : X) :
  is_first_max key pre i b ->
  exists i', is_first_max key (pre ++ l) i' (first_max key b l).
Proof.
  revert pre i b. induction l as [|x l IH]; intros pre i b Hb.
  - exists i. rewrite app_nil_r. done.
  - cbn [first_max]. rewrite (cons_middle x pre l), app_assoc.
    destruct (Z.ltb_spec (key b) (key x)) as [Hlt|Hge].
    + eapply IH, is_first_max_snoc_newer; done.
    + eapply IH, is_first_max_snoc_kept; done.
Qed.

Lemma first_max_spec (b : X) (l : list X) :
  exists i, is_first_max key (b :: l) i (first_max key b l).
Proof.
  apply (first_max_extend l [b] 0%nat b). split; [done|split].
  - intros [|j] x Hx; simplify_eq/=; done.
  - intros j x Hj. lia.
Qed.
End FirstMax.

(** ** The event loop *)

Lemma classify_latest (st : locals) (t : Event) (d : py_datetime) :
  latest_type (classify st t d) = latest_type st /\
  latest_date (classify st t d) = latest_date st /\
  seen (classify st t d) = seen st.
Proof. destruct t; done. Qed.

(** The first event of a block becomes the candidate whatever its
    timestamp: no comparison takes place. *)
Lemma loop_body_first (st : locals) (e : Event * py_datetime) :
  latest_type st = None ->
  loop_body st e =
    Ok (let c := classify st (fst e) (snd e) in
        mk_locals (shipped c) (delivered c) (ship_date c) (delivery_date c)
                  (Some (snd e)) (Some (fst e)) (seen st ++ [new_event e])).
Proof.
  intros Hnone. unfold loop_body, is_newer.
  destruct (classify_latest st (fst e) (snd e)) as (-> & _ & ->).
  rewrite Hnone. done.
Qed.

(** A later event replaces the candidate [b] exactly when its instant is
    strictly later. *)
Lemma loop_body_next (st : locals) (b e : Event * py_datetime) :
  latest_type st = Some (fst b) -> latest_date st = Some (snd b) ->
  is_aware (snd e) = is_aware (snd b) ->
  loop_body st e =
    Ok (let c := classify st (fst e) (snd e) in
        let m := if (event_instant b <? event_instant e)%Z then e else b in
        mk_locals (shipped c) (delivered c) (ship_date c) (delivery_date c)
                  (Some (snd m)) (Some (fst m)) (seen st ++ [new_event e])).
Proof.
  intros Htype Hdate Haware. unfold loop_body, is_newer.
  destruct (classify_latest st (fst e) (snd e)) as (Ht & Hd & Hs).
  rewrite Ht, Hd, Htype, Hdate. cbn [py_gt]. unfold datetime_gt.
  rewrite Haware, Bool.eqb_reflx. cbn [bind]. unfold event_instant.
  destruct (instant (snd b) <? instant (snd e))%Z; cbn; rewrite ?Hs, ?Ht, ?Hd;
    congruence.
Qed.

Lemma for_events_scan (evs : list (Event * py_datetime)) :
  forall (st : locals) (b : Event * py_datetime) (aw : bool),
    latest_type st = Some (fst b) -> latest_date st = Some (snd b) ->
    is_aware (snd b) = aw -> same_awareness aw evs ->
    exists st',
      for_events Ok st evs = Ok st' /\
      latest_type st' = Some (fst (first_max event_instant b evs)) /\
      latest_date st' = Some (snd (first_max event_instant b evs)) /\
      seen st' = seen st ++ map new_event evs.
Proof.
  induction evs as [|e evs IH]; intros st b aw Htype Hdate Hb Hevs.
  - exists st. cbn. rewrite app_nil_r. done.
  - apply Forall_cons in Hevs as [He Hevs]. cbn [for_events first_max bind].
    rewrite (loop_body_next st b e) by congruence. cbn [bind]. cbv zeta.
    match goal with
    | |- context [for_events Ok ?s evs] =>
        destruct (IH s (if (event_instant b <? event_instant e)%Z then e else b) aw)
          as (st' & Hrun & Ht & Hd & Hs); [done|done| |done|]
    end.
    { by destruct (event_instant b <? event_instant e)%Z. }
    exists st'. rewrite Hrun, Ht, Hd, Hs. cbn. rewrite <- app_assoc. done.
Qed.

(** From the initial state: the loop never faults on a sequence of one
    awareness, keeps every event in order, and ends on the first maximum. *)
Lemma for_events_initial (e : Event * py_datetime)
  (evs : list (Event * py_datetime)) (aw : bool) :
  same_awareness aw (e :: evs) ->
  exists st,
    for_events Ok initial (e :: evs) = Ok st /\
    latest_type st = Some (fst (first_max event_instant e evs)) /\
    latest_date st = Some (snd (first_max event_instant e evs)) /\
    seen st = map new_event (e :: evs).
Proof.
  intros Hevs. apply Forall_cons in Hevs as [He Hevs].
  cbn [for_events bind]. rewrite loop_body_first by done. cbn [bind]. cbv zeta.
  match goal with
  | |- context [for_events Ok ?s evs] =>
      destruct (for_events_scan evs s e aw) as (st & Hrun & Ht & Hd & Hs);
        [done|done|done|done|]
  end.
  exists st. rewrite Hrun, Ht, Hd, Hs. done.
Qed.

(** What the normaliser returns for a sequence with a first event. *)
Lemma normalize_nonempty (ids : identifiers) (e : Event * py_datetime)
  (evs : list (Event * py_datetime)) (aw : bool) :
  same_awareness aw (e :: evs) ->
  exists r,
    normalize ids (e :: evs) = Ok r /\
    is_valid r = true /\
    latest_status r = Some (new_event (first_max event_instant e evs)) /\
    events r = Some (map new_event (e :: evs)).
Proof.
  intros Hevs. destruct (for_events_initial e evs aw Hevs) as (st & Hrun & Ht & Hd & Hs).
  exists (assemble ids st). unfold normalize. rewrite Hrun. cbn [bind].
  unfold assemble, new_event. cbn. rewrite Ht, Hd, Hs. done.
Qed.

(** C4: for a non-empty event sequence the normalised result's latest event
    is the event at some position [i] of the input whose timestamp is
    maximal in the sequence, and every event before position [i] is
    strictly earlier: among events sharing the maximum the first one in
    input order is reported.  (Python compares only sequences whose
    timestamps are all aware or all naive.) *)
Theorem latest_event_is_first_maximum (ids : identifiers)
  (evs : list (Event * py_datetime)) (aw : bool) :
  evs <> [] -> same_awareness aw evs ->
  exists r i e,
    normalize ids evs = Ok r /\
    latest_status r = Some (new_event e) /\
    evs !! i = Some e /\
    (forall j x, evs !! j = Some x -> (instant (snd x) <= instant (snd e))%Z) /\
    (forall j x, (j < i)%nat -> evs !! j = Some x ->
                 (instant (snd x) < instant (snd e))%Z).
Proof.
  intros Hne Hevs. destruct evs as [|e evs]; [done|].
  destruct (normalize_nonempty ids e evs aw Hevs) as (r & Hr & _ & Hlatest & _).
  destruct (first_max_spec event_instant e evs) as (i & Hi & Hmax & Hfirst).
  exists r, i, (first_max event_instant e evs). done.
Qed.

Lemma latest_event_is_first_maximum_witness :
  tied_events <> [] /\ same_awareness true tied_events /\
  exists r i e,
    normalize sample_ids tied_events = Ok r /\
    latest_status r = Some (new_event e) /\
    tied_events !! i = Some e /\
    (forall j x, tied_events !! j = Some x ->
                 (instant (snd x) <= instant (snd e))%Z) /\
    (forall j x, (j < i)%nat -> tied_events !! j = Some x ->
                 (instant (snd x) < instant (snd e))%Z).
Proof.
  split; [discriminate|]. split; [repeat constructor|].
  apply (latest_event_is_first_maximum sample_ids tied_events true);
    [discriminate|repeat constructor].
Defined.

(** The example of the specification: of two events at the same instant
    the one received first, [SHIP], is the latest status. *)
Example tie_keeps_first_seen :
  exists r, normalize sample_ids tied_events = Ok r /\
            latest_status r = Some (new_event (SHIP, aware_at 9)).
Proof. eexists. split; reflexivity. Qed.

(** C9: the [events] field of the normalised result is the input sequence,
    event by event in the order received: nothing is sorted, nothing is
    dropped, a repeated event stays repeated. *)
Theorem events_in_received_order (ids : identifiers)
  (evs : list (Event * py_datetime)) (aw : bool) :
  evs <> [] -> same_awareness aw evs ->
  exists r,
    normalize ids evs = Ok r /\
    events r = Some (map new_event evs) /\
    (forall i e, evs !! i = Some e <->
       map new_event evs !! i
         = Some (mk_DateAndTimeEvent (Some (snd e)) (Some (fst e)))).
Proof.
  intros Hne Hevs. destruct evs as [|e0 evs]; [done|].
  destruct (normalize_nonempty ids e0 evs aw Hevs) as (r & Hr & _ & _ & Hevents).
  exists r. split; [done|]. split; [done|].
  intros i e. change (map new_event) with (fmap (M:=list) new_event).
  rewrite list_lookup_fmap. destruct ((e0 :: evs) !! i) as [[t d]|]; cbn.
  - destruct e as [t' d']. unfold new_event. cbn. split; intros; simplify_eq; done.
  - split; intros; done.
Qed.

Lemma events_in_received_order_witness :
  unordered_events <> [] /\ same_awareness true unordered_events /\
  exists r,
    normalize sample_ids unordered_events = Ok r /\
    events r = Some (map new_event unordered_events) /\
    (forall i e, unordered_events !! i = Some e <->
       map new_event unordered_events !! i
         = Some (mk_DateAndTimeEvent (Some (snd e)) (Some (fst e)))).
Proof.
  split; [discriminate|]. split; [repeat constructor|].
  apply (events_in_received_order sample_ids unordered_events true);
    [discriminate|repeat constructor].
Defined.

(** C10: for a non-empty event sequence the result is valid and its latest
    event carries the timestamp and the kind of one and the same input
    event, the one at the position [i] that holds the maximal timestamp
    (the first such position): no event has a later instant, every event
    before position [i] has a strictly earlier one, and the result's
    [events] hold that very pair at position [i]. *)
Theorem latest_event_is_one_event (ids : identifiers)
  (evs : list (Event * py_datetime)) (aw : bool) :
  evs <> [] -> same_awareness aw evs ->
  exists r i e l,
    normalize ids evs = Ok r /\
    is_valid r = true /\
    evs !! i = Some e /\
    (forall j x, evs !! j = Some x -> (instant (snd x) <= instant (snd e))%Z) /\
    (forall j x, (j < i)%nat -> evs !! j = Some x ->
                 (instant (snd x) < instant (snd e))%Z) /\
    latest_status r = Some (mk_DateAndTimeEvent (Some (snd e)) (Some (fst e))) /\
    events r = Some l /\
    l !! i = Some (mk_DateAndTimeEvent (Some (snd e)) (Some (fst e))).
Proof.
  intros Hne Hevs. destruct evs as [|e0 evs]; [done|].
  destruct (normalize_nonempty ids e0 evs aw Hevs)
    as (r & Hr & Hvalid & Hlatest & Hevents).
  destruct (first_max_spec event_instant e0 evs) as (i & Hi & Hmax & Hfirst).
  exists r, i, (first_max event_instant e0 evs), (map new_event (e0 :: evs)).
  repeat (split; [done|]).
  change (map new_event) with (fmap (M:=list) new_event).
  rewrite list_lookup_fmap, Hi. done.
Qed.

Lemma latest_event_is_one_event_witness :
  unordered_events <> [] /\ same_awareness true unordered_events /\
  exists r i e l,
    normalize sample_ids unordered_events = Ok r /\
    is_valid r = true /\
    unordered_events !! i = Some e /\
    (forall j x, unordered_events !! j = Some x ->
                 (instant (snd x) <= instant (snd e))%Z) /\
    (forall j x, (j < i)%nat -> unordered_events !! j = Some x ->
                 (instant (snd x) < instant (snd e))%Z) /\
    latest_status r = Some (mk_DateAndTimeEvent (Some (snd e)) (Some (fst e))) /\
    events r = Some l /\
    l !! i = Some (mk_DateAndTimeEvent (Some (snd e)) (Some (fst e))).
Proof.
  split; [discriminate|]. split; [repeat constructor|].
  apply (latest_event_is_one_event sample_ids unordered_events true);
    [discriminate|repeat constructor].
Defined.

(** ** Delivery flag and delivery date *)

Lemma loop_body_derived (st st' : locals) (e : Event * py_datetime) :
  loop_body st e = Ok st' ->
  shipped st' = shipped (classify st (fst e) (snd e)) /\
  delivered st' = delivered (classify st (fst e) (snd e)) /\
  ship_date st' = ship_date (classify st (fst e) (snd e)) /\
  delivery_date st' = delivery_date (classify st (fst e) (snd e)).
Proof.
  unfold loop_body. destruct (is_newer _ _) as [[]|]; cbn; intros; simplify_eq; done.
Qed.

Lemma classify_delivery (st : locals) (e : Event * py_datetime) :
  delivered (classify st (fst e) (snd e)) = delivered st || is_actual_delivery e /\
  delivery_date (classify st (fst e) (snd e))
    = if writes_delivery_date e then Some (snd e) else delivery_date st.
Proof.
  unfold is_actual_delivery, writes_delivery_date.
  destruct (fst e); cbn; rewrite ?orb_false_r, ?orb_true_r; done.
Qed.

(** The delivery flag is set by any [ACTUAL_DELIVERY]; the delivery date is
    the timestamp of the last event in the list that is an
    [ACTUAL_DELIVERY] or an [ESTIMATED_DELIVERY], whichever of the two. *)
Lemma for_events_delivery (evs : list (Event * py_datetime)) :
  forall st st',
    for_events Ok st evs = Ok st' ->
    delivered st' = delivered st || existsb is_actual_delivery evs /\
    delivery_date st'
      = match last (List.filter writes_delivery_date evs) with
        | Some e => Some (snd e)
        | None => delivery_date st
        end.
Proof.
  induction evs as [|e evs IH]; intros st st' Hrun.
  - cbn in *. simplify_eq. rewrite orb_false_r. done.
  - cbn [for_events bind] in Hrun.
    destruct (loop_body st e) as [st1|] eqn:Hbody; [|done]. cbn [bind] in Hrun.
    destruct (loop_body_derived _ _ _ Hbody) as (_ & Hdel & _ & Hdate).
    destruct (classify_delivery st e) as [Hdel' Hdate'].
    destruct (IH _ _ Hrun) as [-> ->]. rewrite Hdel, Hdel', Hdate, Hdate'.
    cbn [existsb List.filter]. split; [by rewrite orb_assoc|].
    destruct (writes_delivery_date e); [|done].
    rewrite last_cons. by destruct (last _).
Qed.

Lemma normalize_delivery (ids : identifiers) (evs : list (Event * py_datetime))
  (r : TrackingResult) :
  normalize ids evs = Ok r ->
  is_delivered r = Some (existsb is_actual_delivery evs) /\
  date_delivery r = snd <$> last (List.filter writes_delivery_date evs).
Proof.
  unfold normalize. destruct (for_events Ok initial evs) as [st|] eqn:Hrun; [|done].
  cbn. intros [= <-]. destruct (for_events_delivery _ _ _ Hrun) as [Hdel Hdate].
  cbn. rewrite Hdel, Hdate. cbn. by destruct (last _).
Qed.

(** C1, at the failing input: an [ACTUAL_DELIVERY] at instant 5 followed in
    the list by an [ESTIMATED_DELIVERY] at instant 9 yields a result that is
    delivered and whose delivery date is the estimate's timestamp, not the
    delivery's. *)
Theorem estimate_overwrites_actual_delivery :
  exists r,
    normalize sample_ids estimate_after_delivery = Ok r /\
    is_delivered r = Some true /\
    date_delivery r = Some (aware_at 9) /\
    date_delivery r <> Some (aware_at 5).
Proof.
  eexists. split; [reflexivity|]. split; [reflexivity|].
  split; [reflexivity|discriminate].
Qed.

(** The same on the wire: the block's delivery date is 2022-02-06T12:00,
    the estimate, although the block is delivered. *)
Example estimate_overwrites_actual_delivery_on_the_wire :
  exists r,
    track_response fromisoformat_basic
      (Response 200 (Some (body_of [estimate_after_delivery_block]))) = Ok (Some r) /\
    is_delivered r = Some true /\
    date_delivery r = fromisoformat_basic "2022-02-06T12:00:00+00:00".
Proof. eexists. repeat split; vm_compute; reflexivity. Qed.

(** When the estimate comes first the delivery's timestamp is kept. *)
Example delivery_after_estimate_is_kept :
  exists r,
    normalize sample_ids [(ESTIMATED_DELIVERY, aware_at 9); (ACTUAL_DELIVERY, aware_at 5)]
      = Ok r /\
    is_delivered r = Some true /\ date_delivery r = Some (aware_at 5).
Proof. eexists. repeat split; reflexivity. Qed.

(** ** Empty inputs *)

(** C2, the claim refuted: on an empty event sequence the normaliser
    returns, the result is valid, and its latest event has neither
    timestamp nor kind. *)
Lemma empty_events_give_valid_result :
  exists r,
    normalize sample_ids [] = Ok r /\
    is_valid r = true /\
    latest_status r = Some (mk_DateAndTimeEvent None None).
Proof. eexists. repeat split; reflexivity. Qed.

(** C2, as the code has it: on an empty event sequence the normaliser
    raises nothing and returns a valid result that is neither shipped nor
    delivered, has no ship date and no delivery date, an empty event list,
    and a latest event without timestamp and without kind. *)
Theorem normalize_empty_events (ids : identifiers) :
  normalize ids [] =
    Ok (mk_TrackingResult true (id_tracking_number ids) (id_unique_id ids)
          (id_carrier_code ids) (Some false) (Some false) None None
          (Some (mk_DateAndTimeEvent None None)) (Some []) None).
Proof. reflexivity. Qed.

(** C3, the claim refuted: on no results the resolver returns [None] and
    raises nothing. *)
Lemma resolve_nothing_returns_none :
  resolve [] = Ok None /\ ~ (exists e, resolve [] = Raise e).
Proof. split; [reflexivity|]. intros [e He]. discriminate He. Qed.

(** C3, as the code has it: on no results the resolver raises nothing and
    returns [None]; so does the whole query when the response decodes to
    zero result blocks. *)
Theorem no_result_blocks_returns_none
  (fromisoformat : string -> option py_datetime) (status_code : Z)
  (response_data output complete : pyval) (groups : list pyval) :
  raise_for_status status_code = Ok tt ->
  contains "errors" response_data = Ok false ->
  getitem response_data "output" = Ok output ->
  getitem output "completeTrackResults" = Ok complete ->
  iter complete = Ok groups ->
  for_complete_track_results fromisoformat [] groups = Ok (Continue []) ->
  resolve [] = Ok None /\
  track_response fromisoformat (Response status_code (Some response_data))
    = Ok None.
Proof.
  intros Hstatus Herrors Houtput Hcomplete Hiter Hloop. split; [reflexivity|].
  unfold track_response. rewrite Hstatus. cbn [json bind].
  rewrite Herrors. cbn [bind]. rewrite Houtput. cbn [bind].
  rewrite Hcomplete. cbn [bind]. rewrite Hiter. cbn [bind].
  rewrite Hloop. reflexivity.
Qed.

Lemma no_result_blocks_returns_none_witness :
  raise_for_status 200 = Ok tt /\
  contains "errors" empty_body = Ok false /\
  getitem empty_body "output" = Ok (PDict [("completeTrackResults", PList [])]) /\
  getitem (PDict [("completeTrackResults", PList [])]) "completeTrackResults"
    = Ok (PList []) /\
  iter (PList []) = Ok [] /\
  for_complete_track_results fromisoformat_basic [] [] = Ok (Continue []) /\
  resolve [] = Ok None /\
  track_response fromisoformat_basic (Response 200 (Some empty_body)) = Ok None.
Proof.
  repeat (split; [reflexivity|]).
  apply (no_result_blocks_returns_none fromisoformat_basic 200 empty_body
           (PDict [("completeTrackResults", PList [])]) (PList []) []);
    reflexivity.
Defined.

(** ** The resolver *)

Lemma latest_datetime_status (r : TrackingResult) (d : py_datetime) :
  latest_datetime r = Some d ->
  exists status, latest_status r = Some status /\ datetime status = Some d.
Proof.
  unfold latest_datetime. destruct (latest_status r) as [status|]; [|done].
  intros Hd. exists status. done.
Qed.

(** The first result becomes the candidate without a comparison. *)
Lemma resolve_step_first (r : TrackingResult) (d : py_datetime)
  (latest_date : option py_datetime) :
  latest_datetime r = Some d ->
  resolve_step (latest_date, None) r = Ok (Some d, Some r).
Proof.
  intros Hd. apply latest_datetime_status in Hd as (status & Hs & Hd).
  unfold resolve_step, get_latest_status. rewrite Hs. cbn. rewrite Hd. done.
Qed.

(** A later result replaces the candidate [b] exactly when its latest
    instant is strictly later. *)
Lemma resolve_step_next (b r : TrackingResult) (db d : py_datetime) :
  latest_datetime b = Some db -> latest_datetime r = Some d ->
  is_aware d = is_aware db ->
  resolve_step (Some db, Some b) r =
    Ok (let m := if (result_instant b <? result_instant r)%Z then r else b in
        (latest_datetime m, Some m)).
Proof.
  intros Hb Hr Haware. unfold result_instant. rewrite Hb, Hr.
  apply latest_datetime_status in Hr as Hs. destruct Hs as (status & Hs & Hd).
  unfold resolve_step, get_latest_status. rewrite Hs. cbn [bind].
  rewrite Hd. cbn [py_gt]. unfold datetime_gt.
  rewrite Haware, Bool.eqb_reflx. cbn [bind].
  destruct (instant db <? instant d)%Z; cbn; congruence.
Qed.

Lemma resolve_from_scan (rs : list TrackingResult) :
  forall (b : TrackingResult) (db : py_datetime) (aw : bool),
    latest_datetime b = Some db -> is_aware db = aw ->
    comparable_results aw rs ->
    resolve_from (Some db, Some b) rs
      = Ok (latest_datetime (first_max result_instant b rs),
            Some (first_max result_instant b rs)).
Proof.
  induction rs as [|r rs IH]; intros b db aw Hb Hdb Hrs.
  - cbn. rewrite Hb. done.
  - apply Forall_cons in Hrs as [(d & Hr & Hd) Hrs].
    cbn [resolve_from first_max].
    rewrite (resolve_step_next b r db d) by congruence. cbn [bind]. cbv zeta.
    destruct (result_instant b <? result_instant r)%Z.
    + rewrite Hr. apply (IH r d aw); done.
    + rewrite Hb. apply (IH b db aw); done.
Qed.

(** C5, the claim refuted: the normaliser returns a valid result without
    a latest timestamp for an empty event list, and on a sequence that
    holds such a result after another valid normalised result the resolver
    raises [TypeError] and returns nothing. *)
Lemma resolve_eventless_outcome_raises :
  normalize (ids_of "1") [(SHIP, day_2022 1)] = Ok (shipped_at "1" (day_2022 1)) /\
  normalize (ids_of "4") [] = Ok (eventless_result "4") /\
  is_valid (shipped_at "1" (day_2022 1)) = true /\
  is_valid (eventless_result "4") = true /\
  resolve [shipped_at "1" (day_2022 1); eventless_result "4"] = Raise TypeError.
Proof. repeat split; reflexivity. Qed.

(** C5, as the code has it: for a non-empty sequence of normalised results
    that each have a latest timestamp, as every result normalised from a
    non-empty event sequence has, the timestamps all aware or all naive,
    the resolver returns the result at some position [i] whose latest
    timestamp is maximal, every result before position [i] having a
    strictly earlier one: the comparison is strict and the first seen wins
    a tie. *)
Theorem resolve_returns_first_latest (rs : list TrackingResult) (aw : bool) :
  rs <> [] -> comparable_results aw rs ->
  exists i r d,
    resolve rs = Ok (Some r) /\
    rs !! i = Some r /\
    latest_datetime r = Some d /\
    (forall j x dx, rs !! j = Some x -> latest_datetime x = Some dx ->
                    (instant dx <= instant d)%Z) /\
    (forall j x dx, (j < i)%nat -> rs !! j = Some x ->
                    latest_datetime x = Some dx -> (instant dx < instant d)%Z).
Proof.
  intros Hne Hrs. destruct rs as [|b rs]; [done|].
  pose proof Hrs as Hall. apply Forall_cons in Hrs as [(db & Hb & Hdb) Hrs].
  destruct (first_max_spec result_instant b rs) as (i & Hi & Hmax & Hfirst).
  set (m := first_max result_instant b rs) in *.
  assert (exists d, latest_datetime m = Some d) as [d Hm].
  { apply list_elem_of_lookup_2 in Hi.
    destruct (proj1 (Forall_forall _ _) Hall m Hi) as (d & Hd & _). eauto. }
  exists i, m, d. split; [|split; [done|split; [done|split]]].
  - unfold resolve. cbn [resolve_from].
    rewrite (resolve_step_first b db) by done. cbn [bind].
    rewrite (resolve_from_scan rs b db aw) by done. done.
  - intros j x dx Hj Hx. specialize (Hmax j x Hj).
    unfold result_instant in Hmax. rewrite Hx, Hm in Hmax. done.
  - intros j x dx Hlt Hj Hx. specialize (Hfirst j x Hlt Hj).
    unfold result_instant in Hfirst. rewrite Hx, Hm in Hfirst. done.
Qed.

Lemma three_results_comparable : comparable_results true three_results.
Proof. repeat constructor; eexists; split; reflexivity. Qed.

Lemma resolve_returns_first_latest_witness :
  three_results <> [] /\ comparable_results true three_results /\
  exists i r d,
    resolve three_results = Ok (Some r) /\
    three_results !! i = Some r /\
    latest_datetime r = Some d /\
    (forall j x dx, three_results !! j = Some x -> latest_datetime x = Some dx ->
                    (instant dx <= instant d)%Z) /\
    (forall j x dx, (j < i)%nat -> three_results !! j = Some x ->
                    latest_datetime x = Some dx -> (instant dx < instant d)%Z).
Proof.
  split; [discriminate|]. split; [exact three_results_comparable|].
  apply (resolve_returns_first_latest three_results true);
    [discriminate|exact three_results_comparable].
Defined.

(** The example of the specification: of results last seen on 2022-01-01,
    2022-01-03 and 2022-01-02 the resolver returns the second. *)
Example resolve_three_results :
  resolve three_results = Ok (Some (shipped_at "2" (day_2022 3))).
Proof. reflexivity. Qed.

(** What the normaliser produces is what the resolver expects. *)
Lemma normalize_comparable (ids : identifiers) (evs : list (Event * py_datetime))
  (aw : bool) :
  evs <> [] -> same_awareness aw evs ->
  exists r, normalize ids evs = Ok r /\ comparable_results aw [r].
Proof.
  intros Hne Hevs. destruct evs as [|e evs]; [done|].
  destruct (normalize_nonempty ids e evs aw Hevs) as (r & Hr & _ & Hlatest & _).
  exists r. split; [done|]. constructor; [|constructor].
  exists (snd (first_max event_instant e evs)).
  unfold latest_datetime. rewrite Hlatest. split; [done|].
  destruct (first_max_spec event_instant e evs) as (i & Hi & _).
  apply list_elem_of_lookup_2 in Hi.
  exact (proj1 (Forall_forall _ _) Hevs _ Hi).
Qed.

Example day_2022_is_midnight :
  fromisoformat_basic "2022-01-03T00:00:00+00:00" = Some (day_2022 3).
Proof. reflexivity. Qed.

(** ** The loops of [track_by_number] *)

Section Loops.
Variable fromisoformat : string -> option py_datetime.

Lemma for_events_app {X : Type} (decode : X -> result (Event * py_datetime))
  (before after : list X) :
  forall st st',
    for_events decode st before = Ok st' ->
    for_events decode st (before ++ after) = for_events decode st' after.
Proof.
  induction before as [|item before IH]; intros st st' Hrun.
  - cbn in Hrun. by simplify_eq.
  - cbn [for_events app] in *. destruct (decode item) as [e|]; [|done].
    cbn [bind] in *. destruct (loop_body st e) as [st1|]; [|done].
    cbn [bind] in *. eauto.
Qed.

(** Once the blocks before [block] are through, the loop of line 163 is
    at [block]. *)
Lemma for_track_results_at (before after : list pyval) (block : pyval) :
  forall collected tracking_results,
    for_track_results fromisoformat collected before
      = Ok (Continue tracking_results) ->
    for_track_results fromisoformat collected (before ++ block :: after) =
      let* step := track_result fromisoformat block in
      match step with
      | Return r => Ok (Return r)
      | Continue r =>
          for_track_results fromisoformat (tracking_results ++ [r]) after
      end.
Proof.
  induction before as [|b before IH]; intros collected tracking_results Hrun.
  - cbn in Hrun. by simplify_eq.
  - cbn [for_track_results app] in *.
    destruct (track_result fromisoformat b) as [[r|r]|]; cbn [bind] in *;
      [eauto|done|done].
Qed.

(** Once the groups before [track_index] are through, the loop of line
    161 is at the blocks of [track_index]. *)
Lemma for_complete_track_results_at (before after : list pyval)
  (track_index track_results : pyval) (blocks : list pyval) :
  getitem track_index "trackResults" = Ok track_results ->
  iter track_results = Ok blocks ->
  forall start collected,
    for_complete_track_results fromisoformat start before
      = Ok (Continue collected) ->
    for_complete_track_results fromisoformat start
      (before ++ track_index :: after) =
      let* step := for_track_results fromisoformat collected blocks in
      match step with
      | Return r => Ok (Return r)
      | Continue tracking_results =>
          for_complete_track_results fromisoformat tracking_results after
      end.
Proof.
  intros Hget Hiter.
  induction before as [|g before IH]; intros start collected Hrun.
  - cbn in Hrun. simplify_eq. cbn [for_complete_track_results app].
    rewrite Hget. cbn [bind]. rewrite Hiter. done.
  - cbn [for_complete_track_results app] in *.
    destruct (getitem g "trackResults") as [trs|]; [|done]. cbn [bind] in *.
    destruct (iter trs) as [bs|]; [|done]. cbn [bind] in *.
    destruct (for_track_results fromisoformat start bs) as [[acc|r]|];
      cbn [bind] in *; [eauto|done|done].
Qed.

(** What the query returns is decided at a block that decoding reaches
    and that leaves by a [return] or by a fault. *)
Lemma track_response_at (status_code : Z) (response_data block : pyval)
  (tracking_results : list TrackingResult) :
  raise_for_status status_code = Ok tt ->
  contains "errors" response_data = Ok false ->
  reaches fromisoformat response_data block tracking_results ->
  (forall r, track_result fromisoformat block = Ok (Return r) ->
     track_response fromisoformat (Response status_code (Some response_data))
       = Ok (Some r)) /\
  (forall e, track_result fromisoformat block = Raise e ->
     track_response fromisoformat (Response status_code (Some response_data))
       = Raise e).
Proof.
  intros Hstatus Herrors
    (output & complete & gb & ti & ga & collected & trs & bb & ba &
     Hout & Hcomp & Hiter & Hgroups & Htrs & Hblocks & Hbefore).
  assert (forall step,
    track_result fromisoformat block = step ->
    track_response fromisoformat (Response status_code (Some response_data)) =
      let* step := (let* step := step in
                    match step with
                    | Return r => Ok (Return r)
                    | Continue r =>
                        for_track_results fromisoformat
                          (tracking_results ++ [r]) ba
                    end) in
      let* step := match step with
                   | Return r => Ok (Return r)
                   | Continue rs =>
                       for_complete_track_results fromisoformat rs ga
                   end in
      match step with
      | Return r => Ok (Some r)
      | Continue rs => resolve rs
      end) as Hat.
  { intros step Hstep. unfold track_response. rewrite Hstatus.
    cbn [json bind]. rewrite Herrors. cbn [bind]. rewrite Hout. cbn [bind].
    rewrite Hcomp. cbn [bind]. rewrite Hiter. cbn [bind].
    rewrite (for_complete_track_results_at gb ga ti trs _ Htrs Hblocks
               [] collected Hgroups).
    rewrite (for_track_results_at bb ba block collected tracking_results Hbefore).
    rewrite Hstep. destruct step as [[r|r]|e]; cbn [bind]; [|done|done].
    destruct (for_track_results _ _ ba) as [[rs|r']|e]; cbn [bind]; done. }
  split; intros x Hx; rewrite (Hat _ Hx); done.
Qed.

Lemma getitem_contains (v x : pyval) (k : string) :
  getitem v k = Ok x -> contains k v = Ok true.
Proof.
  destruct v as [| | | | |entries]; try done. cbn.
  destruct (dict_get entries k) as [y|] eqn:Hget; [|done]. intros _.
  rewrite bool_decide_eq_true_2 by eauto. done.
Qed.

(** A block with identifiers and without ["dateAndTimes"] leaves
    [track_by_number] with [TrackingResult(False)]. *)
Lemma track_result_missing_events (block : pyval) (ids : identifiers) :
  read_identifiers block = Ok ids ->
  contains "dateAndTimes" block = Ok false ->
  track_result fromisoformat block = Ok (Return (TrackingResult_init false)).
Proof.
  intros Hids Hmissing. unfold track_result. rewrite Hids. cbn [bind].
  rewrite Hmissing. done.
Qed.

(** An event whose ["type"] names no member of [Event] ends the block
    with the [KeyError] of the lookup. *)
Lemma decode_event_unknown (event : pyval) (tag : string) :
  getitem event "type" = Ok (PStr tag) ->
  member_named Event_members tag = None ->
  decode_event fromisoformat event = Raise (KeyError (PStr tag)).
Proof.
  intros Htype Hunknown. unfold decode_event. rewrite Htype. cbn [bind].
  unfold Event_getitem. rewrite Hunknown. done.
Qed.

Lemma track_result_unknown (block date_and_times event : pyval)
  (ids : identifiers) (before after : list pyval) (st : locals) (tag : string) :
  read_identifiers block = Ok ids ->
  getitem block "dateAndTimes" = Ok date_and_times ->
  iter date_and_times = Ok (before ++ event :: after) ->
  for_events (decode_event fromisoformat) initial before = Ok st ->
  getitem event "type" = Ok (PStr tag) ->
  member_named Event_members tag = None ->
  track_result fromisoformat block = Raise (KeyError (PStr tag)).
Proof.
  intros Hids Hget Hiter Hbefore Htype Hunknown. unfold track_result.
  rewrite Hids. cbn [bind]. rewrite (getitem_contains _ _ _ Hget).
  cbn [bind negb]. rewrite Hget. cbn [bind]. rewrite Hiter. cbn [bind].
  rewrite (for_events_app _ before (event :: after) initial st Hbefore).
  cbn [for_events]. rewrite (decode_event_unknown event tag Htype Hunknown).
  done.
Qed.
End Loops.

(** ** The query as a whole *)

(** C6, the claim refuted: a block without events does not make the query
    return an invalid result when a block before it faults; here the first
    block's event type is unknown and the [KeyError] leaves the method. *)
Lemma missing_events_after_fault_raises :
  contains "dateAndTimes" (block_without_events "794644790140") = Ok false /\
  track_by_number fromisoformat_basic sample_api
    (answering (Response 200 (Some drift_then_missing))) "794644790139"
  = (Raise (KeyError (PStr "HELD_AT_CUSTOMS")),
     [Posted "https://apis.fedex.com/track/v1/trackingnumbers" "794644790139"]).
Proof. split; vm_compute; reflexivity. Qed.

(** C6, as the code has it: the query returns [TrackingResult(False)],
    every other field [None], when the status is an HTTP failure, when the
    body has an ["errors"] key, and when decoding reaches a block that has
    its identifiers and no ["dateAndTimes"]. *)
Theorem invalid_scenarios_return_invalid_result
  (fromisoformat : string -> option py_datetime) (self : FedexAPI) (w : World)
  (number : string) :
  invalid_scenario fromisoformat (post w (TRACK_URL self) (AUTH_KEY self) number) ->
  track_by_number fromisoformat self w number =
    (Ok (Some (mk_TrackingResult false PNone PNone PNone
                 None None None None None None None)),
     [Posted (TRACK_URL self) number]).
Proof.
  intros Hscenario. unfold track_by_number. f_equal.
  destruct Hscenario as [status_code body Hstatus
                        |status_code response_data Hstatus Herrors
                        |status_code response_data block tracking_results ids
                           Hstatus Herrors Hreach Hids Hmissing].
  - unfold track_response. rewrite Hstatus. done.
  - unfold track_response. rewrite Hstatus. cbn [json bind]. rewrite Herrors. done.
  - destruct (track_response_at fromisoformat status_code response_data block
                tracking_results Hstatus Herrors Hreach) as [Hreturn _].
    apply Hreturn. eapply track_result_missing_events; done.
Qed.

Lemma delivered_then_missing_reaches :
  exists tracking_results,
    reaches fromisoformat_basic delivered_then_missing
      (block_without_events "794644790140") tracking_results.
Proof.
  eexists. unfold reaches.
  eexists _, _, [], _, [], [], _, [delivered_block], [].
  repeat (split; [reflexivity|]). vm_compute. reflexivity.
Defined.

Lemma invalid_scenarios_return_invalid_result_witness :
  invalid_scenario fromisoformat_basic
    (post (answering (Response 200 (Some delivered_then_missing)))
          (TRACK_URL sample_api) (AUTH_KEY sample_api) "794644790138") /\
  track_by_number fromisoformat_basic sample_api
    (answering (Response 200 (Some delivered_then_missing))) "794644790138" =
    (Ok (Some (mk_TrackingResult false PNone PNone PNone
                 None None None None None None None)),
     [Posted (TRACK_URL sample_api) "794644790138"]).
Proof.
  assert (invalid_scenario fromisoformat_basic
            (post (answering (Response 200 (Some delivered_then_missing)))
                  (TRACK_URL sample_api) (AUTH_KEY sample_api) "794644790138"))
    as Hscenario.
  { destruct delivered_then_missing_reaches as [tracking_results Hreach].
    eapply missing_events; [reflexivity|reflexivity|exact Hreach| |];
      vm_compute; reflexivity. }
  split; [exact Hscenario|].
  apply (invalid_scenarios_return_invalid_result fromisoformat_basic sample_api
           (answering (Response 200 (Some delivered_then_missing)))
           "794644790138" Hscenario).
Defined.

(** The two other scenarios on the wire. *)
Example http_failure_returns_invalid_result :
  track_by_number fromisoformat_basic sample_api
    (answering (Response 404 None)) "794644790138" =
    (Ok (Some (TrackingResult_init false)),
     [Posted (TRACK_URL sample_api) "794644790138"]).
Proof. reflexivity. Qed.

Example errors_key_returns_invalid_result :
  track_by_number fromisoformat_basic sample_api
    (answering (Response 200 (Some (PDict [("errors", PList [])]))))
    "794644790138" =
    (Ok (Some (TrackingResult_init false)),
     [Posted (TRACK_URL sample_api) "794644790138"]).
Proof. reflexivity. Qed.

(** C7, the claim refuted: a response that contains an event of unknown
    type is answered by [TrackingResult(False)], without any fault, when a
    block before that event's block has no ["dateAndTimes"]. *)
Lemma unknown_type_after_missing_events_is_invalid :
  member_named Event_members "HELD_AT_CUSTOMS" = None /\
  track_by_number fromisoformat_basic sample_api
    (answering (Response 200 (Some missing_then_drift))) "794644790139"
  = (Ok (Some (TrackingResult_init false)),
     [Posted "https://apis.fedex.com/track/v1/trackingnumbers" "794644790139"]).
Proof. split; vm_compute; reflexivity. Qed.

(** C7, as the code has it: when the status is no HTTP failure, the body
    has no ["errors"] key and decoding reaches an event whose ["type"]
    names no member of [Event], the query raises the [KeyError] of that
    name, nothing catches it, and no result is returned. *)
Theorem unknown_event_type_raises
  (fromisoformat : string -> option py_datetime) (self : FedexAPI) (w : World)
  (number : string) (status_code : Z) (response_data event : pyval)
  (tag : string) :
  post w (TRACK_URL self) (AUTH_KEY self) number
    = Response status_code (Some response_data) ->
  raise_for_status status_code = Ok tt ->
  contains "errors" response_data = Ok false ->
  reaches_event fromisoformat response_data event ->
  getitem event "type" = Ok (PStr tag) ->
  member_named Event_members tag = None ->
  track_by_number fromisoformat self w number =
    (Raise (KeyError (PStr tag)), [Posted (TRACK_URL self) number]).
Proof.
  intros Hpost Hstatus Herrors
    (block & tracking_results & ids & date_and_times & before & after & st &
     Hreach & Hids & Hget & Hiter & Hbefore) Htype Hunknown.
  unfold track_by_number. rewrite Hpost. f_equal.
  destruct (track_response_at fromisoformat status_code response_data block
              tracking_results Hstatus Herrors Hreach) as [_ Hraise].
  apply Hraise. eapply track_result_unknown; done.
Qed.

Lemma drift_then_missing_reaches_event :
  reaches_event fromisoformat_basic drift_then_missing
    (raw_event "HELD_AT_CUSTOMS" "2022-02-03T09:15:00+00:00").
Proof.
  unfold reaches_event.
  eexists drifted_block, [], _, _,
    [raw_event "SHIP" "2022-02-01T08:00:00+00:00"], [], _.
  split.
  { unfold reaches.
    eexists _, _, [], _, [], [], _, [], [block_without_events "794644790140"].
    repeat (split; [reflexivity|]). reflexivity. }
  repeat (split; [reflexivity|]). vm_compute. reflexivity.
Defined.

Lemma unknown_event_type_raises_witness :
  post (answering (Response 200 (Some drift_then_missing)))
       (TRACK_URL sample_api) (AUTH_KEY sample_api) "794644790139"
    = Response 200 (Some drift_then_missing) /\
  raise_for_status 200 = Ok tt /\
  contains "errors" drift_then_missing = Ok false /\
  reaches_event fromisoformat_basic drift_then_missing
    (raw_event "HELD_AT_CUSTOMS" "2022-02-03T09:15:00+00:00") /\
  getitem (raw_event "HELD_AT_CUSTOMS" "2022-02-03T09:15:00+00:00") "type"
    = Ok (PStr "HELD_AT_CUSTOMS") /\
  member_named Event_members "HELD_AT_CUSTOMS" = None /\
  track_by_number fromisoformat_basic sample_api
    (answering (Response 200 (Some drift_then_missing))) "794644790139" =
    (Raise (KeyError (PStr "HELD_AT_CUSTOMS")),
     [Posted (TRACK_URL sample_api) "794644790139"]).
Proof.
  split; [reflexivity|]. split; [reflexivity|]. split; [reflexivity|].
  split; [exact drift_then_missing_reaches_event|].
  split; [reflexivity|]. split; [reflexivity|].
  apply (unknown_event_type_raises fromisoformat_basic sample_api
           (answering (Response 200 (Some drift_then_missing))) "794644790139"
           200 drift_then_missing
           (raw_event "HELD_AT_CUSTOMS" "2022-02-03T09:15:00+00:00")
           "HELD_AT_CUSTOMS");
    [reflexivity|reflexivity|reflexivity|exact drift_then_missing_reaches_event
    |reflexivity|reflexivity].
Defined.

(** ** Document retrieval *)

(** C8: for a bare tracking number (no [~], so that the split has one
    piece) whose query yields a result that is not valid, [download_pod]
    raises [InvalidRequestError] and its only effect is the tracking query:
    no document is fetched and no file is written. *)
Theorem invalid_resolution_never_fetches
  (fromisoformat : string -> option py_datetime) (self : FedexAPI) (w : World)
  (identifier new_filename : string) (r : TrackingResult) :
  length (split "~" identifier) = 1%nat ->
  track_response fromisoformat (post w (TRACK_URL self) (AUTH_KEY self) identifier)
    = Ok (Some r) ->
  is_valid r = false ->
  download_pod fromisoformat self w identifier new_filename =
    (Raise (invalid_request identifier), [Posted (TRACK_URL self) identifier]) /\
  (forall url,
     Fetched url ∉ snd (download_pod fromisoformat self w identifier new_filename)) /\
  (forall filename chunks,
     Wrote filename chunks
       ∉ snd (download_pod fromisoformat self w identifier new_filename)).
Proof.
  intros Hbare Hquery Hinvalid.
  assert (download_pod fromisoformat self w identifier new_filename =
            (Raise (invalid_request identifier),
             [Posted (TRACK_URL self) identifier])) as Hrun.
  { unfold download_pod, resolve_identifier, track_by_number.
    rewrite Hbare, Hquery. cbn. rewrite Hinvalid. reflexivity. }
  split; [exact Hrun|]. rewrite Hrun. cbn [snd].
  split; intros; intros Hin; apply list_elem_of_singleton in Hin; discriminate Hin.
Qed.

Lemma invalid_resolution_never_fetches_witness :
  length (split "~" "794644790138") = 1%nat /\
  track_response fromisoformat_basic
    (post (answering (Response 404 None)) (TRACK_URL sample_api)
          (AUTH_KEY sample_api) "794644790138")
    = Ok (Some (TrackingResult_init false)) /\
  is_valid (TrackingResult_init false) = false /\
  download_pod fromisoformat_basic sample_api (answering (Response 404 None))
    "794644790138" "pod.pdf" =
    (Raise (invalid_request "794644790138"),
     [Posted (TRACK_URL sample_api) "794644790138"]) /\
  (forall url,
     Fetched url ∉ snd (download_pod fromisoformat_basic sample_api
                          (answering (Response 404 None)) "794644790138" "pod.pdf")) /\
  (forall filename chunks,
     Wrote filename chunks
       ∉ snd (download_pod fromisoformat_basic sample_api
                (answering (Response 404 None)) "794644790138" "pod.pdf")).
Proof.
  split; [reflexivity|]. split; [reflexivity|]. split; [reflexivity|].
  apply (invalid_resolution_never_fetches fromisoformat_basic sample_api
           (answering (Response 404 None)) "794644790138" "pod.pdf"
           (TrackingResult_init false)); reflexivity.
Defined.

(** An identifier already in [qualifier~number] form goes to the fetch
    without a query. *)
Example unique_id_is_fetched_directly :
  download_pod fromisoformat_basic sample_api
    (mk_World (fun _ _ _ => Unreachable) (fun _ => Download 200 ["%PDF"])
              (fun _ => Writable None))
    "2459545000~794644790138" "pod.pdf" =
    (Ok tt, [Fetched (pod_url "794644790138" "2459545000");
             Wrote "pod.pdf" ["%PDF"]]).
Proof. reflexivity. Qed.

(** ** The normaliser inside [track_by_number] *)

(** When every item of a block's event list decodes, the loop of line 177
    is the normaliser's loop on the decoded events. *)
Lemma for_events_decoded {X : Type} (decode : X -> result (Event * py_datetime))
  (items : list X) :
  forall (evs : list (Event * py_datetime)) (st : locals),
    decode_all decode items = Ok evs ->
    for_events decode st items = for_events Ok st evs.
Proof.
  induction items as [|item items IH]; intros evs st Hall.
  - cbn in Hall. by simplify_eq.
  - cbn [decode_all for_events] in *. destruct (decode item) as [e|]; [|done].
    cbn [bind] in *. destruct (decode_all decode items) as [es|]; [|done].
    cbn [bind] in Hall. simplify_eq. cbn [for_events bind].
    destruct (loop_body st e) as [st1|]; [|done]. cbn [bind]. eauto.
Qed.

(** A block with identifiers and a decodable event list is normalised. *)
Lemma track_result_normalize (fromisoformat : string -> option py_datetime)
  (block date_and_times : pyval) (ids : identifiers) (items : list pyval)
  (evs : list (Event * py_datetime)) :
  read_identifiers block = Ok ids ->
  getitem block "dateAndTimes" = Ok date_and_times ->
  iter date_and_times = Ok items ->
  decode_all (decode_event fromisoformat) items = Ok evs ->
  track_result fromisoformat block =
    let* r := normalize ids evs in Ok (Continue r).
Proof.
  intros Hids Hget Hiter Hall. unfold track_result, normalize.
  rewrite Hids. cbn [bind]. rewrite (getitem_contains _ _ _ Hget).
  cbn [bind negb]. rewrite Hget. cbn [bind]. rewrite Hiter. cbn [bind].
  rewrite (for_events_decoded _ items evs initial Hall).
  destruct (for_events Ok initial evs); done.
Qed.

(** The fixture of the specification: shipped on 2022-02-01, delivered on
    2022-02-05, the delivery being the latest status. *)
Example delivered_block_round_trip :
  exists r,
    track_response fromisoformat_basic (Response 200 (Some (body_of [delivered_block])))
      = Ok (Some r) /\
    is_shipped r = Some true /\ is_delivered r = Some true /\
    date_ship r = fromisoformat_basic "2022-02-01T08:00:00+00:00" /\
    date_delivery r = fromisoformat_basic "2022-02-05T14:30:00+00:00" /\
    (exists status, latest_status r = Some status /\
                    type status = Some ACTUAL_DELIVERY).
Proof.
  eexists. split; [vm_compute; reflexivity|].
  repeat split; try (vm_compute; reflexivity).
  eexists. split; reflexivity.
Qed.

(** * Further properties of the code *)

(** ** Ship flag and ship date *)

Lemma classify_ship (st : locals) (e : Event * py_datetime) :
  shipped (classify st (fst e) (snd e)) = shipped st || is_ship e /\
  ship_date (classify st (fst e) (snd e))
    = if is_ship e then Some (snd e) else ship_date st.
Proof.
  unfold is_ship. destruct (fst e); cbn; rewrite ?orb_false_r, ?orb_true_r; done.
Qed.

Lemma for_events_ship (evs : list (Event * py_datetime)) :
  forall st st',
    for_events Ok st evs = Ok st' ->
    shipped st' = shipped st || existsb is_ship evs /\
    ship_date st'
      = match last (List.filter is_ship evs) with
        | Some e => Some (snd e)
        | None => ship_date st
        end.
Proof.
  induction evs as [|e evs IH]; intros st st' Hrun.
  - cbn in *. simplify_eq. rewrite orb_false_r. done.
  - cbn [for_events bind] in Hrun.
    destruct (loop_body st e) as [st1|] eqn:Hbody; [|done]. cbn [bind] in Hrun.
    destruct (loop_body_derived _ _ _ Hbody) as (Hship & _ & Hdate & _).
    destruct (classify_ship st e) as [Hship' Hdate'].
    destruct (IH _ _ Hrun) as [-> ->]. rewrite Hship, Hship', Hdate, Hdate'.
    cbn [existsb List.filter]. split; [by rewrite orb_assoc|].
    destruct (is_ship e); [|done].
    rewrite last_cons. by destruct (last _).
Qed.

(** On timestamps that compare, the normaliser returns. *)
Lemma normalize_total (ids : identifiers) (evs : list (Event * py_datetime))
  (aw : bool) :
  same_awareness aw evs -> exists r, normalize ids evs = Ok r.
Proof.
  intros Hevs. destruct evs as [|e evs]; [eexists; reflexivity|].
  destruct (normalize_nonempty ids e evs aw Hevs) as (r & Hr & _). eauto.
Qed.

(** X1: the result is shipped exactly when some event is a [SHIP], and its
    ship date is the timestamp of the last [SHIP] in list order, whatever
    the timestamps say: a later [SHIP] overwrites an earlier one. *)
Theorem ship_date_is_last_ship (ids : identifiers)
  (evs : list (Event * py_datetime)) (aw : bool) :
  same_awareness aw evs ->
  exists r,
    normalize ids evs = Ok r /\
    is_shipped r = Some (existsb is_ship evs) /\
    date_ship r = snd <$> last (List.filter is_ship evs).
Proof.
  intros Hevs. destruct (normalize_total ids evs aw Hevs) as [r Hr].
  exists r. split; [done|]. unfold normalize in Hr.
  destruct (for_events Ok initial evs) as [st|] eqn:Hrun; [|done].
  cbn in Hr. simplify_eq. destruct (for_events_ship _ _ _ Hrun) as [Hship Hdate].
  cbn. rewrite Hship, Hdate. cbn. by destruct (last _).
Qed.

Lemma ship_date_is_last_ship_witness :
  same_awareness true reshipped_events /\
  exists r,
    normalize sample_ids reshipped_events = Ok r /\
    is_shipped r = Some (existsb is_ship reshipped_events) /\
    date_ship r = snd <$> last (List.filter is_ship reshipped_events).
Proof.
  split; [repeat constructor|].
  apply (ship_date_is_last_ship sample_ids reshipped_events true).
  repeat constructor.
Defined.

(** The later [SHIP], at the earlier instant 3, is the ship date. *)
Example reshipped_ship_date :
  exists r, normalize sample_ids reshipped_events = Ok r /\
            date_ship r = Some (aware_at 3).
Proof. eexists. split; reflexivity. Qed.

(** X2: the result is delivered exactly when some event is an
    [ACTUAL_DELIVERY], and its delivery date is the timestamp of the last
    event in list order that is an [ACTUAL_DELIVERY] or an
    [ESTIMATED_DELIVERY]; without either there is no delivery date. *)
Theorem delivery_date_is_last_write (ids : identifiers)
  (evs : list (Event * py_datetime)) (aw : bool) :
  same_awareness aw evs ->
  exists r,
    normalize ids evs = Ok r /\
    is_delivered r = Some (existsb is_actual_delivery evs) /\
    date_delivery r = snd <$> last (List.filter writes_delivery_date evs).
Proof.
  intros Hevs. destruct (normalize_total ids evs aw Hevs) as [r Hr].
  exists r. split; [done|]. exact (normalize_delivery ids evs r Hr).
Qed.

Lemma delivery_date_is_last_write_witness :
  same_awareness true unordered_events /\
  exists r,
    normalize sample_ids unordered_events = Ok r /\
    is_delivered r = Some (existsb is_actual_delivery unordered_events) /\
    date_delivery r
      = snd <$> last (List.filter writes_delivery_date unordered_events).
Proof.
  split; [repeat constructor|].
  apply (delivery_date_is_last_write sample_ids unordered_events true).
  repeat constructor.
Defined.

(** ** Timestamps that do not compare *)

Lemma loop_body_mixed (st : locals) (t : Event) (d : py_datetime)
  (e : Event * py_datetime) :
  latest_type st = Some t -> latest_date st = Some d ->
  is_aware (snd e) = negb (is_aware d) ->
  loop_body st e = Raise TypeError.
Proof.
  intros Htype Hdate Hmixed. unfold loop_body, is_newer.
  destruct (classify_latest st (fst e) (snd e)) as (-> & -> & _).
  rewrite Htype, Hdate. cbn [py_gt]. unfold datetime_gt. rewrite Hmixed.
  by destruct (is_aware d).
Qed.

(** X3: when the events up to some point are all aware or all naive and
    the next event is of the other sort, the comparison of line 188 raises
    [TypeError] and no result is built, whatever follows. *)
Theorem mixed_awareness_raises (ids : identifiers) (first e : Event * py_datetime)
  (before after : list (Event * py_datetime)) (aw : bool) :
  same_awareness aw (first :: before) ->
  is_aware (snd e) = negb aw ->
  normalize ids (first :: before ++ e :: after) = Raise TypeError.
Proof.
  intros Hbefore Hmixed.
  destruct (for_events_initial first before aw Hbefore) as (st & Hrun & Ht & Hd & _).
  unfold normalize. rewrite (app_comm_cons before (e :: after) first).
  rewrite (for_events_app Ok (first :: before) (e :: after) initial st Hrun).
  cbn [for_events bind].
  rewrite (loop_body_mixed st _ _ e Ht Hd); [done|].
  destruct (first_max_spec event_instant first before) as (i & Hi & _).
  apply list_elem_of_lookup_2 in Hi.
  rewrite (proj1 (Forall_forall _ _) Hbefore _ Hi). done.
Qed.

Lemma mixed_awareness_raises_witness :
  same_awareness true [(SHIP, aware_at 1); (COMMITMENT, aware_at 4)] /\
  is_aware (snd (ESTIMATED_DELIVERY, mk_datetime 9 None)) = negb true /\
  normalize sample_ids mixed_events = Raise TypeError.
Proof.
  split; [repeat constructor|]. split; [reflexivity|].
  apply (mixed_awareness_raises sample_ids (SHIP, aware_at 1)
           (ESTIMATED_DELIVERY, mk_datetime 9 None)
           [(COMMITMENT, aware_at 4)] [(ACTUAL_DELIVERY, aware_at 10)] true);
    [repeat constructor|reflexivity].
Defined.

(** ** Results without a latest timestamp *)

Lemma resolve_from_app (before after : list TrackingResult) :
  forall st st',
    resolve_from st before = Ok st' ->
    resolve_from st (before ++ after) = resolve_from st' after.
Proof.
  induction before as [|r before IH]; intros st st' Hrun.
  - cbn in Hrun. by simplify_eq.
  - cbn [resolve_from app] in *. destruct (resolve_step st r) as [st1|]; [|done].
    cbn [bind] in *. eauto.
Qed.

(** After a non-empty run of comparable results the resolver holds a
    candidate and its timestamp. *)
Lemma resolve_from_candidate (rs : list TrackingResult) (aw : bool) :
  rs <> [] -> comparable_results aw rs ->
  exists d m, resolve_from (None, None) rs = Ok (Some d, Some m).
Proof.
  intros Hne Hrs. destruct rs as [|b rs]; [done|].
  pose proof Hrs as Hall. apply Forall_cons in Hrs as [(db & Hb & Hdb) Hrs].
  cbn [resolve_from]. rewrite (resolve_step_first b db) by done. cbn [bind].
  rewrite (resolve_from_scan rs b db aw) by done.
  destruct (first_max_spec result_instant b rs) as (i & Hi & _).
  apply list_elem_of_lookup_2 in Hi.
  destruct (proj1 (Forall_forall _ _) Hall _ Hi) as (d & Hd & _).
  rewrite Hd. eauto.
Qed.

(** X4: a result whose latest status has no timestamp, which is what a
    block with an empty event list gives, makes the resolver raise
    [TypeError] as soon as there is another result to compare it with,
    before it or after it. *)
Theorem resolve_without_timestamp_raises (before after : list TrackingResult)
  (r : TrackingResult) (status : DateAndTimeEvent) (aw : bool) :
  latest_status r = Some status -> datetime status = None ->
  comparable_results aw before -> comparable_results aw after ->
  before ++ after <> [] ->
  resolve (before ++ r :: after) = Raise TypeError.
Proof.
  intros Hstatus Hnone Hbefore Hafter Hother. unfold resolve.
  destruct before as [|b before].
  - destruct after as [|a after]; [done|].
    apply Forall_cons in Hafter as [(da & Ha & _) _].
    apply latest_datetime_status in Ha as (sa & Hsa & Hda).
    cbn [app resolve_from]. unfold resolve_step at 1, get_latest_status.
    rewrite Hstatus. cbn [bind]. rewrite Hnone.
    unfold resolve_step, get_latest_status. rewrite Hsa. cbn [bind].
    rewrite Hda. done.
  - destruct (resolve_from_candidate (b :: before) aw) as (d & m & Hrun);
      [done|done|].
    rewrite (resolve_from_app (b :: before) (r :: after) _ _ Hrun).
    cbn [resolve_from]. unfold resolve_step, get_latest_status.
    rewrite Hstatus. cbn [bind]. rewrite Hnone. done.
Qed.

Lemma resolve_without_timestamp_raises_witness :
  latest_status (eventless_result "4") = Some (mk_DateAndTimeEvent None None) /\
  datetime (mk_DateAndTimeEvent None None) = None /\
  comparable_results true three_results /\ comparable_results true [] /\
  three_results ++ [] <> [] /\
  resolve (three_results ++ eventless_result "4" :: []) = Raise TypeError.
Proof.
  split; [reflexivity|]. split; [reflexivity|].
  split; [exact three_results_comparable|]. split; [constructor|].
  split; [discriminate|].
  apply (resolve_without_timestamp_raises three_results [] (eventless_result "4")
           (mk_DateAndTimeEvent None None) true);
    [reflexivity|reflexivity|exact three_results_comparable|constructor
    |discriminate].
Defined.

(** On the wire: a block with an empty event list after a decodable block
    ends the query with [TypeError]; alone it is returned as valid. *)
Example empty_event_list_after_block_raises :
  track_response fromisoformat_basic
    (Response 200 (Some (body_of [delivered_block; block_with "794644790141" []])))
  = Raise TypeError.
Proof. vm_compute. reflexivity. Qed.

(** ** The nested loops and the resolver together *)

Section Composition.
Variable fromisoformat : string -> option py_datetime.

Lemma for_track_results_app (before after : list pyval) :
  forall collected,
    for_track_results fromisoformat collected (before ++ after) =
      let* step := for_track_results fromisoformat collected before in
      match step with
      | Return r => Ok (Return r)
      | Continue tracking_results =>
          for_track_results fromisoformat tracking_results after
      end.
Proof.
  induction before as [|b before IH]; intros collected; [done|].
  cbn [for_track_results app].
  destruct (track_result fromisoformat b) as [[r|r]|]; cbn [bind]; eauto.
Qed.

(** The two loops visit the blocks of all groups as one sequence. *)
Lemma for_complete_track_results_flat (groups : list pyval)
  (blocks : list (list pyval)) :
  Forall2 group_blocks groups blocks ->
  forall collected,
    for_complete_track_results fromisoformat collected groups =
      for_track_results fromisoformat collected (concat blocks).
Proof.
  induction 1 as [|g bs groups blocks (trs & Hget & Hiter) _ IH];
    intros collected; [done|].
  cbn [for_complete_track_results concat]. rewrite Hget. cbn [bind].
  rewrite Hiter. cbn [bind]. rewrite for_track_results_app.
  destruct (for_track_results fromisoformat collected bs) as [[acc|r]|];
    cbn [bind]; eauto.
Qed.

Lemma for_track_results_all (blocks : list pyval) (rs : list TrackingResult) :
  Forall2 (fun b r => track_result fromisoformat b = Ok (Continue r)) blocks rs ->
  forall collected,
    for_track_results fromisoformat collected blocks = Ok (Continue (collected ++ rs)).
Proof.
  induction 1 as [|b r blocks rs Hb _ IH]; intros collected.
  - cbn. by rewrite app_nil_r.
  - cbn [for_track_results]. rewrite Hb. cbn [bind]. rewrite IH.
    by rewrite <- app_assoc.
Qed.

Lemma normalizes_to_track_result (block : pyval) (r : TrackingResult) :
  normalizes_to fromisoformat block r ->
  track_result fromisoformat block = Ok (Continue r).
Proof.
  intros (ids & dts & items & evs & Hids & Hget & Hiter & Hall & Hr).
  rewrite (track_result_normalize fromisoformat block dts ids items evs) by done.
  rewrite Hr. done.
Qed.

(** X5: when the status is no HTTP failure, the body has no ["errors"] key
    and every result block of every group has its identifiers and a
    decodable event list, the query returns what the resolver picks among
    the normalised results of all blocks, taken group after group in the
    order of the response. *)
Theorem query_resolves_normalized_blocks (status_code : Z)
  (response_data output complete : pyval) (groups : list pyval)
  (blocks : list (list pyval)) (rs : list TrackingResult) :
  raise_for_status status_code = Ok tt ->
  contains "errors" response_data = Ok false ->
  getitem response_data "output" = Ok output ->
  getitem output "completeTrackResults" = Ok complete ->
  iter complete = Ok groups ->
  Forall2 group_blocks groups blocks ->
  Forall2 (normalizes_to fromisoformat) (concat blocks) rs ->
  track_response fromisoformat (Response status_code (Some response_data))
    = resolve rs.
Proof.
  intros Hstatus Herrors Hout Hcomplete Hiter Hgroups Hblocks.
  unfold track_response. rewrite Hstatus. cbn [json bind].
  rewrite Herrors. cbn [bind]. rewrite Hout. cbn [bind].
  rewrite Hcomplete. cbn [bind]. rewrite Hiter. cbn [bind].
  rewrite (for_complete_track_results_flat groups blocks Hgroups).
  rewrite (for_track_results_all (concat blocks) rs).
  - done.
  - eapply Forall2_impl; [exact Hblocks|]. apply normalizes_to_track_result.
Qed.

(** ** Where an invalid result comes from *)

Lemma track_result_return (block : pyval) (r : TrackingResult) :
  track_result fromisoformat block = Ok (Return r) ->
  exists ids,
    read_identifiers block = Ok ids /\
    contains "dateAndTimes" block = Ok false /\
    r = TrackingResult_init false.
Proof.
  unfold track_result. destruct (read_identifiers block) as [ids|]; [|done].
  cbn [bind]. destruct (contains "dateAndTimes" block) as [[]|]; cbn [bind negb].
  - destruct (getitem block "dateAndTimes") as [dts|]; [|done]. cbn [bind].
    destruct (iter dts) as [items|]; [|done]. cbn [bind].
    destruct (for_events _ _ _); done.
  - intros [= <-]. eauto.
  - done.
Qed.

Lemma for_track_results_return (blocks : list pyval) :
  forall collected r,
    for_track_results fromisoformat collected blocks = Ok (Return r) ->
    exists before block after tracking_results,
      blocks = before ++ block :: after /\
      for_track_results fromisoformat collected before
        = Ok (Continue tracking_results) /\
      track_result fromisoformat block = Ok (Return r).
Proof.
  induction blocks as [|b blocks IH]; intros collected r Hrun; [done|].
  cbn [for_track_results] in Hrun.
  destruct (track_result fromisoformat b) as [[r1|r1]|] eqn:Hb; cbn [bind] in Hrun;
    [| |done].
  - destruct (IH _ _ Hrun) as (before & block & after & acc & -> & Hbefore & Hblock).
    exists (b :: before), block, after, acc. split; [done|]. split; [|done].
    cbn [for_track_results]. rewrite Hb. done.
  - simplify_eq. exists [], b, blocks, collected. done.
Qed.

Lemma for_complete_track_results_return (groups : list pyval) :
  forall start r,
    for_complete_track_results fromisoformat start groups = Ok (Return r) ->
    exists groups_before track_index groups_after collected track_results
           blocks_before block blocks_after tracking_results,
      groups = groups_before ++ track_index :: groups_after /\
      for_complete_track_results fromisoformat start groups_before
        = Ok (Continue collected) /\
      getitem track_index "trackResults" = Ok track_results /\
      iter track_results = Ok (blocks_before ++ block :: blocks_after) /\
      for_track_results fromisoformat collected blocks_before
        = Ok (Continue tracking_results) /\
      track_result fromisoformat block = Ok (Return r).
Proof.
  induction groups as [|g groups IH]; intros start r Hrun; [done|].
  cbn [for_complete_track_results] in Hrun.
  destruct (getitem g "trackResults") as [trs|] eqn:Hget; [|done].
  cbn [bind] in Hrun. destruct (iter trs) as [bs|] eqn:Hiter; [|done].
  cbn [bind] in Hrun.
  destruct (for_track_results fromisoformat start bs) as [[acc|r1]|] eqn:Hbs;
    cbn [bind] in Hrun; [| |done].
  - destruct (IH _ _ Hrun)
      as (gb & ti & ga & collected & trs' & bb & block & ba & acc' &
          -> & Hgb & Hti & Hbb & Hacc & Hblock).
    exists (g :: gb), ti, ga, collected, trs', bb, block, ba, acc'.
    split; [done|]. split; [|done].
    cbn [for_complete_track_results]. rewrite Hget. cbn [bind].
    rewrite Hiter. cbn [bind]. rewrite Hbs. done.
  - simplify_eq.
    destruct (for_track_results_return _ _ _ Hbs)
      as (bb & block & ba & acc' & -> & Hacc & Hblock).
    exists [], g, groups, start, trs, bb, block, ba, acc'. done.
Qed.

(** ** What the loops keep true *)

Lemma initial_coherent : coherent_locals initial.
Proof.
  split; [|split; [|split]]; cbn; done.
Qed.

Lemma classify_coherent (st : locals) (t : Event) (d : py_datetime) :
  coherent_locals st ->
  (shipped (classify st t d) = true <-> is_Some (ship_date (classify st t d))) /\
  (delivered (classify st t d) = true -> is_Some (delivery_date (classify st t d))).
Proof.
  intros (Hship & Hdel & _). destruct t; cbn; try done; split; eauto.
Qed.

Lemma loop_body_coherent (st st' : locals) (e : Event * py_datetime) :
  coherent_locals st -> loop_body st e = Ok st' -> coherent_locals st'.
Proof.
  intros Hst Hbody.
  destruct (classify_coherent st (fst e) (snd e) Hst) as [Hship Hdel].
  destruct (classify_latest st (fst e) (snd e)) as (Ht & Hd & Hs).
  destruct Hst as (_ & _ & Hempty & Hfull).
  unfold loop_body, is_newer in Hbody. rewrite Ht, Hd in Hbody.
  destruct (latest_type st) as [t0|] eqn:Htype.
  - destruct (py_gt _ _) as [[]|]; cbn in Hbody; simplify_eq;
      (split; [done|split; [done|split]]); cbn; rewrite ?Hs.
    + intros Hnil. by apply app_eq_nil in Hnil as [_ ?].
    + intros _. exists e. split; [done|]. split; [done|].
      apply elem_of_app. right. by apply list_elem_of_singleton.
    + intros Hnil. by apply app_eq_nil in Hnil as [_ ?].
    + intros _. rewrite Ht, Hd.
      destruct (seen st) as [|x l] eqn:Hseen.
      { destruct (Hempty eq_refl) as [_ ?]. congruence. }
      destruct Hfull as (e0 & Hd0 & Ht0 & Hin); [done|].
      exists e0. split; [done|]. split; [congruence|].
      apply elem_of_app. by left.
  - cbn in Hbody. simplify_eq. (split; [done|split; [done|split]]); cbn; rewrite ?Hs.
    + intros Hnil. by apply app_eq_nil in Hnil as [_ ?].
    + intros _. exists e. split; [done|]. split; [done|].
      apply elem_of_app. right. by apply list_elem_of_singleton.
Qed.

Lemma for_events_coherent {X : Type} (decode : X -> result (Event * py_datetime))
  (items : list X) :
  forall st st',
    coherent_locals st -> for_events decode st items = Ok st' -> coherent_locals st'.
Proof.
  induction items as [|item items IH]; intros st st' Hst Hrun.
  - cbn in Hrun. by simplify_eq.
  - cbn [for_events] in Hrun. destruct (decode item) as [e|]; [|done].
    cbn [bind] in Hrun. destruct (loop_body st e) as [st1|] eqn:Hbody; [|done].
    cbn [bind] in Hrun. eapply IH; [|done]. eapply loop_body_coherent; done.
Qed.

Lemma assemble_coherent (ids : identifiers) (st : locals) :
  coherent_locals st -> coherent (assemble ids st).
Proof.
  intros (Hship & Hdel & Hempty & Hfull). split; [done|]. split; [done|].
  exists (shipped st), (delivered st), (seen st),
         (mk_DateAndTimeEvent (latest_date st) (latest_type st)).
  cbn. repeat (split; [done|]).
  intros Hne. destruct (Hfull Hne) as (e & -> & -> & Hin). eauto.
Qed.

Lemma track_result_coherent (block : pyval) (r : TrackingResult) :
  track_result fromisoformat block = Ok (Continue r) -> coherent r.
Proof.
  unfold track_result. destruct (read_identifiers block) as [ids|]; [|done].
  cbn [bind]. destruct (contains "dateAndTimes" block) as [[]|]; cbn [bind negb];
    [|done|done].
  destruct (getitem block "dateAndTimes") as [dts|]; [|done]. cbn [bind].
  destruct (iter dts) as [items|]; [|done]. cbn [bind].
  destruct (for_events _ _ _) as [st|] eqn:Hrun; [|done]. cbn [bind].
  intros [= <-]. apply assemble_coherent.
  eapply for_events_coherent; [exact initial_coherent|exact Hrun].
Qed.

Lemma for_track_results_coherent (blocks : list pyval) :
  forall collected tracking_results,
    Forall coherent collected ->
    for_track_results fromisoformat collected blocks = Ok (Continue tracking_results) ->
    Forall coherent tracking_results.
Proof.
  induction blocks as [|b blocks IH]; intros collected rs Hcollected Hrun.
  - cbn in Hrun. by simplify_eq.
  - cbn [for_track_results] in Hrun.
    destruct (track_result fromisoformat b) as [[r|r]|] eqn:Hb; cbn [bind] in Hrun;
      [|done|done].
    eapply IH; [|done]. apply Forall_app. split; [done|].
    constructor; [|constructor]. by eapply track_result_coherent.
Qed.

Lemma for_complete_track_results_coherent (groups : list pyval) :
  forall collected tracking_results,
    Forall coherent collected ->
    for_complete_track_results fromisoformat collected groups
      = Ok (Continue tracking_results) ->
    Forall coherent tracking_results.
Proof.
  induction groups as [|g groups IH]; intros collected rs Hcollected Hrun.
  - cbn in Hrun. by simplify_eq.
  - cbn [for_complete_track_results] in Hrun.
    destruct (getitem g "trackResults") as [trs|]; [|done]. cbn [bind] in Hrun.
    destruct (iter trs) as [bs|]; [|done]. cbn [bind] in Hrun.
    destruct (for_track_results fromisoformat collected bs) as [[acc|r]|] eqn:Hbs;
      cbn [bind] in Hrun; [|done|done].
    eapply IH; [|done]. by eapply for_track_results_coherent.
Qed.
End Composition.

(** The resolver returns one of the results it was given. *)
Lemma resolve_from_member (rs : list TrackingResult) :
  forall st st',
    resolve_from st rs = Ok st' ->
    snd st' = snd st \/ exists r, snd st' = Some r /\ r ∈ rs.
Proof.
  induction rs as [|r rs IH]; intros st st' Hrun.
  - cbn in Hrun. simplify_eq. by left.
  - cbn [resolve_from] in Hrun.
    destruct (resolve_step st r) as [st1|] eqn:Hstep; [|done]. cbn [bind] in Hrun.
    assert (snd st1 = snd st \/ snd st1 = Some r) as Hst1.
    { unfold resolve_step in Hstep. destruct st as [ld lr].
      destruct (get_latest_status r) as [status|]; [|done]. cbn [bind] in Hstep.
      destruct lr as [b|]; cbn [bind] in Hstep.
      - destruct (py_gt _ _) as [[]|]; cbn [bind] in Hstep; simplify_eq; eauto.
      - simplify_eq. eauto. }
    destruct (IH _ _ Hrun) as [Hsame|(x & Hx & Hin)].
    + destruct Hst1 as [Hst1|Hst1]; [left; congruence|].
      right. exists r. split; [congruence|]. apply list_elem_of_here.
    + right. exists x. split; [done|]. by apply list_elem_of_further.
Qed.

Lemma resolve_member (rs : list TrackingResult) (r : TrackingResult) :
  resolve rs = Ok (Some r) -> r ∈ rs.
Proof.
  unfold resolve. destruct (resolve_from (None, None) rs) as [st|] eqn:Hrun; [|done].
  cbn [bind]. intros [= Hr].
  destruct (resolve_from_member _ _ _ Hrun) as [Hsame|(x & Hx & Hin)].
  - cbn in Hsame. congruence.
  - congruence.
Qed.

Lemma two_group_body_blocks :
  Forall2 group_blocks
    [PDict [("trackResults", PList [delivered_block])];
     PDict [("trackResults", PList [in_transit_block])]]
    [[delivered_block]; [in_transit_block]].
Proof. repeat constructor; eexists; split; reflexivity. Qed.

Lemma two_group_body_normalizes :
  exists rs,
    Forall2 (normalizes_to fromisoformat_basic)
      (concat [[delivered_block]; [in_transit_block]]) rs.
Proof.
  eexists [_; _]. repeat constructor;
    (eexists _, _, _, _;
     split; [reflexivity|]; split; [reflexivity|]; split; [reflexivity|];
     split; [vm_compute; reflexivity|vm_compute; reflexivity]).
Defined.

Lemma query_resolves_normalized_blocks_witness :
  raise_for_status 200 = Ok tt /\
  contains "errors" two_group_body = Ok false /\
  Forall2 group_blocks
    [PDict [("trackResults", PList [delivered_block])];
     PDict [("trackResults", PList [in_transit_block])]]
    [[delivered_block]; [in_transit_block]] /\
  exists rs,
    Forall2 (normalizes_to fromisoformat_basic)
      (concat [[delivered_block]; [in_transit_block]]) rs /\
    track_response fromisoformat_basic (Response 200 (Some two_group_body))
      = resolve rs.
Proof.
  split; [reflexivity|]. split; [reflexivity|].
  split; [exact two_group_body_blocks|].
  destruct two_group_body_normalizes as [rs Hrs]. exists rs. split; [exact Hrs|].
  eapply (query_resolves_normalized_blocks fromisoformat_basic 200 two_group_body);
    [reflexivity|reflexivity|reflexivity|reflexivity|reflexivity
    |exact two_group_body_blocks|exact Hrs].
Defined.

(** X6: the query returns a result that is not valid in the three
    scenarios and in no other case: an HTTP status failure, an ["errors"]
    key in the body, or a block reached by decoding that has its
    identifiers and no ["dateAndTimes"]. *)
Theorem invalid_result_only_in_scenarios
  (fromisoformat : string -> option py_datetime) (response : reply) :
  (exists r, track_response fromisoformat response = Ok (Some r) /\
             is_valid r = false)
  <-> invalid_scenario fromisoformat response.
Proof.
  split.
  - intros (r & Hrun & Hinvalid). destruct response as [|status_code body]; [done|].
    unfold track_response in Hrun.
    destruct (raise_for_status status_code) as [[]|e] eqn:Hstatus.
    + destruct body as [response_data|]; [|done]. cbn [json bind] in Hrun.
      destruct (contains "errors" response_data) as [[]|] eqn:Herrors;
        cbn [bind] in Hrun; [by eapply application_error| |done].
      destruct (getitem response_data "output") as [output|] eqn:Hout; [|done].
      cbn [bind] in Hrun.
      destruct (getitem output "completeTrackResults") as [complete|] eqn:Hcomp;
        [|done].
      cbn [bind] in Hrun. destruct (iter complete) as [groups|] eqn:Hiter; [|done].
      cbn [bind] in Hrun.
      destruct (for_complete_track_results fromisoformat [] groups)
        as [[rs|r']|] eqn:Hloop; cbn [bind] in Hrun; [| |done].
      * apply resolve_member in Hrun.
        pose proof (for_complete_track_results_coherent fromisoformat groups [] rs
                      (Forall_nil_2 _) Hloop) as Hrs.
        destruct (proj1 (Forall_forall _ _) Hrs r Hrun) as [Hvalid _]. congruence.
      * simplify_eq.
        destruct (for_complete_track_results_return fromisoformat _ _ _ Hloop)
          as (gb & ti & ga & collected & trs & bb & block & ba & acc &
              -> & Hgb & Hti & Hbb & Hacc & Hblock).
        destruct (track_result_return fromisoformat _ _ Hblock)
          as (ids & Hids & Hmissing & _).
        eapply (missing_events fromisoformat status_code response_data block acc ids);
          try done.
        exists output, complete, gb, ti, ga, collected, trs, bb, ba. done.
    + destruct e; try done. by apply http_status_failure.
  - intros [status_code body Hstatus
           |status_code response_data Hstatus Herrors
           |status_code response_data block tracking_results ids
              Hstatus Herrors Hreach Hids Hmissing];
      exists (TrackingResult_init false); (split; [|done]).
    + unfold track_response. rewrite Hstatus. done.
    + unfold track_response. rewrite Hstatus. cbn [json bind]. rewrite Herrors. done.
    + destruct (track_response_at fromisoformat status_code response_data block
                  tracking_results Hstatus Herrors Hreach) as [Hreturn _].
      apply Hreturn. eapply track_result_missing_events; done.
Qed.

(** X7: whatever the query returns as a result is either
    [TrackingResult(False)] or a valid result without package in which the
    flags, the event list and the latest status are set, a ship date is
    there exactly when the result is shipped, a delivered result has a
    delivery date, and the latest status is one of the events unless there
    is none, in which case it has neither timestamp nor type. *)
Theorem returned_result_is_coherent
  (fromisoformat : string -> option py_datetime) (response : reply)
  (r : TrackingResult) :
  track_response fromisoformat response = Ok (Some r) ->
  r = TrackingResult_init false \/ coherent r.
Proof.
  intros Hrun. destruct response as [|status_code body]; [done|].
  unfold track_response in Hrun.
  destruct (raise_for_status status_code) as [[]|e].
  - destruct body as [response_data|]; [|done]. cbn [json bind] in Hrun.
    destruct (contains "errors" response_data) as [[]|]; cbn [bind] in Hrun;
      [simplify_eq; by left| |done].
    destruct (getitem response_data "output") as [output|]; [|done].
    cbn [bind] in Hrun.
    destruct (getitem output "completeTrackResults") as [complete|]; [|done].
    cbn [bind] in Hrun. destruct (iter complete) as [groups|]; [|done].
    cbn [bind] in Hrun.
    destruct (for_complete_track_results fromisoformat [] groups)
      as [[rs|r']|] eqn:Hloop; cbn [bind] in Hrun; [| |done].
    + right. apply resolve_member in Hrun.
      pose proof (for_complete_track_results_coherent fromisoformat groups [] rs
                    (Forall_nil_2 _) Hloop) as Hrs.
      exact (proj1 (Forall_forall _ _) Hrs r Hrun).
    + left. simplify_eq.
      destruct (for_complete_track_results_return fromisoformat _ _ _ Hloop)
        as (gb & ti & ga & collected & trs & bb & block & ba & acc &
            _ & _ & _ & _ & _ & Hblock).
      by destruct (track_result_return fromisoformat _ _ Hblock) as (ids & _ & _ & ->).
  - destruct e; try done. simplify_eq. by left.
Qed.

Lemma returned_result_is_coherent_witness :
  exists r,
    track_response fromisoformat_basic (Response 200 (Some two_group_body))
      = Ok (Some r) /\
    (r = TrackingResult_init false \/ coherent r).
Proof.
  eexists. split; [vm_compute; reflexivity|].
  eapply (returned_result_is_coherent fromisoformat_basic
            (Response 200 (Some two_group_body))).
  vm_compute. reflexivity.
Defined.

(** ** Faults inside a block *)

(** X8: a block reached by decoding that is a dict without
    ["trackingNumberInfo"] ends the query with the [KeyError] of that key,
    whether or not the block has ["dateAndTimes"]: the identifiers are
    read before the event list is looked for. *)
Theorem missing_identifiers_raise
  (fromisoformat : string -> option py_datetime) (self : FedexAPI) (w : World)
  (number : string) (status_code : Z) (response_data : pyval)
  (entries : list (string * pyval)) (tracking_results : list TrackingResult) :
  post w (TRACK_URL self) (AUTH_KEY self) number
    = Response status_code (Some response_data) ->
  raise_for_status status_code = Ok tt ->
  contains "errors" response_data = Ok false ->
  reaches fromisoformat response_data (PDict entries) tracking_results ->
  dict_get entries "trackingNumberInfo" = None ->
  track_by_number fromisoformat self w number =
    (Raise (KeyError (PStr "trackingNumberInfo")),
     [Posted (TRACK_URL self) number]).
Proof.
  intros Hpost Hstatus Herrors Hreach Hmissing.
  unfold track_by_number. rewrite Hpost. f_equal.
  destruct (track_response_at fromisoformat status_code response_data
              (PDict entries) tracking_results Hstatus Herrors Hreach)
    as [_ Hraise].
  apply Hraise. unfold track_result, read_identifiers. cbn [getitem].
  rewrite Hmissing. done.
Qed.

Lemma missing_identifiers_raise_witness :
  post (answering (Response 200 (Some (body_of [PDict []]))))
       (TRACK_URL sample_api) (AUTH_KEY sample_api) "794644790138"
    = Response 200 (Some (body_of [PDict []])) /\
  raise_for_status 200 = Ok tt /\
  contains "errors" (body_of [PDict []]) = Ok false /\
  reaches fromisoformat_basic (body_of [PDict []]) (PDict []) [] /\
  dict_get [] "trackingNumberInfo" = None /\
  track_by_number fromisoformat_basic sample_api
    (answering (Response 200 (Some (body_of [PDict []])))) "794644790138" =
    (Raise (KeyError (PStr "trackingNumberInfo")),
     [Posted (TRACK_URL sample_api) "794644790138"]).
Proof.
  assert (reaches fromisoformat_basic (body_of [PDict []]) (PDict []) [])
    as Hreach.
  { unfold reaches. eexists _, _, [], _, [], [], _, [], [].
    repeat (split; [reflexivity|]). reflexivity. }
  split; [reflexivity|]. split; [reflexivity|]. split; [reflexivity|].
  split; [exact Hreach|]. split; [reflexivity|].
  apply (missing_identifiers_raise fromisoformat_basic sample_api
           (answering (Response 200 (Some (body_of [PDict []]))))
           "794644790138" 200 (body_of [PDict []]) [] []);
    [reflexivity|reflexivity|reflexivity|exact Hreach|reflexivity].
Defined.

(** X9: when decoding reaches an event whose ["type"] names a member of
    [Event] and whose ["dateTime"] is a string that [fromisoformat]
    rejects, the query raises [ValueError]; nothing catches it. *)
Theorem bad_timestamp_raises
  (fromisoformat : string -> option py_datetime) (self : FedexAPI) (w : World)
  (number : string) (status_code : Z) (response_data event : pyval)
  (tag text : string) (event_type : Event) :
  post w (TRACK_URL self) (AUTH_KEY self) number
    = Response status_code (Some response_data) ->
  raise_for_status status_code = Ok tt ->
  contains "errors" response_data = Ok false ->
  reaches_event fromisoformat response_data event ->
  getitem event "type" = Ok (PStr tag) ->
  member_named Event_members tag = Some event_type ->
  getitem event "dateTime" = Ok (PStr text) ->
  fromisoformat text = None ->
  track_by_number fromisoformat self w number =
    (Raise ValueError, [Posted (TRACK_URL self) number]).
Proof.
  intros Hpost Hstatus Herrors
    (block & tracking_results & ids & date_and_times & before & after & st &
     Hreach & Hids & Hget & Hiter & Hbefore) Htype Hknown Htext Hbad.
  unfold track_by_number. rewrite Hpost. f_equal.
  destruct (track_response_at fromisoformat status_code response_data block
              tracking_results Hstatus Herrors Hreach) as [_ Hraise].
  apply Hraise. unfold track_result.
  rewrite Hids. cbn [bind]. rewrite (getitem_contains _ _ _ Hget).
  cbn [bind negb]. rewrite Hget. cbn [bind]. rewrite Hiter. cbn [bind].
  rewrite (for_events_app _ before (event :: after) initial st Hbefore).
  cbn [for_events]. unfold decode_event. rewrite Htype. cbn [bind].
  unfold Event_getitem. rewrite Hknown. cbn [bind]. rewrite Htext. cbn [bind].
  unfold parse_datetime. rewrite Hbad. done.
Qed.

Lemma garbled_block_reaches_event :
  reaches_event fromisoformat_basic (body_of [garbled_block])
    (raw_event "ACTUAL_DELIVERY" "yesterday").
Proof.
  unfold reaches_event.
  eexists garbled_block, [], _, _,
    [raw_event "SHIP" "2022-02-01T08:00:00+00:00"], [], _.
  split.
  { unfold reaches. eexists _, _, [], _, [], [], _, [], [].
    repeat (split; [reflexivity|]). reflexivity. }
  repeat (split; [reflexivity|]). vm_compute. reflexivity.
Defined.

Lemma bad_timestamp_raises_witness :
  post (answering (Response 200 (Some (body_of [garbled_block]))))
       (TRACK_URL sample_api) (AUTH_KEY sample_api) "794644790143"
    = Response 200 (Some (body_of [garbled_block])) /\
  raise_for_status 200 = Ok tt /\
  contains "errors" (body_of [garbled_block]) = Ok false /\
  reaches_event fromisoformat_basic (body_of [garbled_block])
    (raw_event "ACTUAL_DELIVERY" "yesterday") /\
  getitem (raw_event "ACTUAL_DELIVERY" "yesterday") "type"
    = Ok (PStr "ACTUAL_DELIVERY") /\
  member_named Event_members "ACTUAL_DELIVERY" = Some ACTUAL_DELIVERY /\
  getitem (raw_event "ACTUAL_DELIVERY" "yesterday") "dateTime"
    = Ok (PStr "yesterday") /\
  fromisoformat_basic "yesterday" = None /\
  track_by_number fromisoformat_basic sample_api
    (answering (Response 200 (Some (body_of [garbled_block])))) "794644790143" =
    (Raise ValueError, [Posted (TRACK_URL sample_api) "794644790143"]).
Proof.
  split; [reflexivity|]. split; [reflexivity|]. split; [reflexivity|].
  split; [exact garbled_block_reaches_event|].
  split; [reflexivity|]. split; [reflexivity|]. split; [reflexivity|].
  split; [reflexivity|].
  apply (bad_timestamp_raises fromisoformat_basic sample_api
           (answering (Response 200 (Some (body_of [garbled_block]))))
           "794644790143" 200 (body_of [garbled_block])
           (raw_event "ACTUAL_DELIVERY" "yesterday")
           "ACTUAL_DELIVERY" "yesterday" ACTUAL_DELIVERY);
    [reflexivity|reflexivity|reflexivity|exact garbled_block_reaches_event
    |reflexivity|reflexivity|reflexivity|reflexivity].
Defined.

(** ** The members of [Event] *)

Lemma member_named_elem_of {A : Type} (members : list (string * A))
  (name : string) (m : A) :
  member_named members name = Some m -> (name, m) ∈ members.
Proof.
  induction members as [|[n x] members IH]; cbn; [done|].
  destruct (String.eqb_spec n name) as [->|_].
  - intros [= ->]. apply list_elem_of_here.
  - intros Hrest. apply list_elem_of_further. auto.
Qed.

(** X10: looking a member up by its value gives the member back, and a
    string that [Event[...]] accepts is the value of the member it gives:
    the tags the decoder accepts are the thirteen values, letter for
    letter. *)
Theorem Event_lookup_round_trip :
  (forall e, Event_getitem (PStr (Event_value e)) = Ok e) /\
  (forall s e, Event_getitem (PStr s) = Ok e -> s = Event_value e).
Proof.
  split.
  - intros []; reflexivity.
  - intros s e. unfold Event_getitem.
    destruct (member_named Event_members s) as [m|] eqn:Hm; [|done].
    intros [= ->]. apply member_named_elem_of in Hm. unfold Event_members in Hm.
    repeat (apply elem_of_cons in Hm as [Hm|Hm]; [by simplify_eq|]).
    by apply not_elem_of_nil in Hm.
Qed.

(** ** [split] *)

Lemma split_not_nil (sep : ascii) (s : string) : split sep s <> [].
Proof.
  destruct s as [|c s]; cbn; [done|].
  destruct (Ascii.eqb c sep); [done|]. by destruct (split sep s).
Qed.

(** One piece means no separator. *)
Lemma split_bare (sep : ascii) (s : string) :
  length (split sep s) = 1%nat <-> sep ∉ list_ascii_of_string s.
Proof.
  induction s as [|c s IH]; cbn [split list_ascii_of_string].
  - split; [intros _; apply not_elem_of_nil|done].
  - destruct (Ascii.eqb_spec c sep) as [->|Hne].
    + split.
      * cbn. intros [= Hlen]. pose proof (split_not_nil sep s) as Hnil.
        by destruct (split sep s).
      * intros Hnot. exfalso. apply Hnot. apply list_elem_of_here.
    + rewrite not_elem_of_cons, <- IH.
      pose proof (split_not_nil sep s) as Hnil.
      destruct (split sep s) as [|piece pieces]; [done|]. cbn.
      split; [intros; split; [congruence|done]|by intros [_ ?]].
Qed.

(** ** [download_pod] *)

Lemma raise_for_status_cases (status_code : Z) :
  raise_for_status status_code = Ok tt \/
  raise_for_status status_code = Raise HTTPError.
Proof. unfold raise_for_status. destruct (_ && _); auto. Qed.

Section Documents.
Variable fromisoformat : string -> option py_datetime.
Variable self : FedexAPI.
Variable w : World.

(** What lines 223-227 do with a resolved identifier. *)
Lemma fetch_pod_cases (resolved : pyval) (new_filename : string) :
  fetch_pod w resolved new_filename = (Raise AttributeError, []) \/
  fetch_pod w resolved new_filename = (Raise IndexError, []) \/
  exists u qualifier tracking_number rest,
    resolved = PStr u /\
    split "~" u = qualifier :: tracking_number :: rest /\
    ((exists e,
        fetch_pod w resolved new_filename =
          (Raise e, [Fetched (pod_url tracking_number qualifier)])) \/
     exists status_code received room,
       get w (pod_url tracking_number qualifier) = Download status_code received /\
       raise_for_status status_code = Ok tt /\
       access w new_filename = Writable room /\
       fetch_pod w resolved new_filename =
         (if complete room received then Ok tt else Raise OSError,
          [Fetched (pod_url tracking_number qualifier);
           Wrote new_filename (written room received)])).
Proof.
  destruct resolved as [| | |u| |]; try (by left).
  right. unfold fetch_pod.
  destruct (split "~" u) as [|qualifier [|tracking_number rest]] eqn:Hsplit;
    [by left|by left|].
  right. exists u, qualifier, tracking_number, rest. split; [done|]. split; [done|].
  cbn [lookup list_lookup]. unfold _download_file.
  destruct (get w (pod_url tracking_number qualifier)) as [|status_code received];
    [left; by eexists|].
  destruct (raise_for_status_cases status_code) as [Hok|Hfail]; rewrite ?Hok, ?Hfail;
    [|left; by eexists].
  destruct (access w new_filename) as [|room] eqn:Haccess; [left; by eexists|].
  right. exists status_code, received, room. repeat (split; [done|]).
  by destruct (complete room received).
Qed.


(** X12: for a bare tracking number whose query returns a valid result
    with a string unique id of at least two pieces, the document is
    requested for the first two pieces of that unique id; when the
    response has a good status and the file can be opened, the effects are
    the query, the request and the file, in that order, and the call
    returns exactly when the file took every chunk. *)
Theorem bare_number_is_resolved_then_fetched (identifier new_filename : string)
  (r : TrackingResult) (u qualifier tracking_number : string)
  (rest : list string) (status_code : Z) (chunks : list string)
  (room : option nat) :
  length (split "~" identifier) = 1%nat ->
  track_response fromisoformat (post w (TRACK_URL self) (AUTH_KEY self) identifier)
    = Ok (Some r) ->
  is_valid r = true ->
  unique_id r = PStr u ->
  split "~" u = qualifier :: tracking_number :: rest ->
  get w (pod_url tracking_number qualifier) = Download status_code chunks ->
  raise_for_status status_code = Ok tt ->
  access w new_filename = Writable room ->
  download_pod fromisoformat self w identifier new_filename =
    (if complete room chunks then Ok tt else Raise OSError,
     [Posted (TRACK_URL self) identifier;
      Fetched (pod_url tracking_number qualifier);
      Wrote new_filename (written room chunks)]).
Proof.
  intros Hbare Hquery Hvalid Hid Hsplit Hget Hstatus Haccess.
  unfold download_pod, resolve_identifier, track_by_number.
  rewrite Hbare, Hquery. cbn [Nat.eqb io_bind]. rewrite Hvalid. cbn [negb io_ret].
  rewrite Hid. cbn [io_bind]. unfold fetch_pod. rewrite Hsplit.
  cbn [lookup list_lookup]. unfold _download_file.
  rewrite Hget, Hstatus, Haccess. by destruct (complete room chunks).
Qed.

(** For a bare tracking number the query is the first effect, and the
    identifier handed on is the unique id of a valid result. *)
Lemma resolve_identifier_bare (identifier : string) :
  length (split "~" identifier) = 1%nat ->
  (exists e, resolve_identifier fromisoformat self w identifier
               = (Raise e, [Posted (TRACK_URL self) identifier])) \/
  (exists r,
     track_response fromisoformat
       (post w (TRACK_URL self) (AUTH_KEY self) identifier) = Ok (Some r) /\
     is_valid r = true /\
     resolve_identifier fromisoformat self w identifier
       = (Ok (unique_id r), [Posted (TRACK_URL self) identifier])).
Proof.
  intros Hbare. unfold resolve_identifier, track_by_number. rewrite Hbare.
  cbn [Nat.eqb].
  destruct (track_response _ _) as [[r|]|e]; cbn [io_bind io_raise].
  - destruct (is_valid r) eqn:Hvalid; cbn [negb io_ret io_raise].
    + right. exists r. done.
    + left. eexists. done.
  - left. eexists. done.
  - left. eexists. done.
Qed.

Lemma resolve_identifier_qualified (identifier : string) :
  length (split "~" identifier) <> 1%nat ->
  resolve_identifier fromisoformat self w identifier = (Ok (PStr identifier), []).
Proof.
  intros Hne. unfold resolve_identifier.
  destruct (Nat.eqb_spec (length (split "~" identifier)) 1); done.
Qed.

(** The resolution of the identifier writes no file. *)
Lemma resolve_identifier_log (identifier : string) (f : string) (c : list string) :
  Wrote f c ∉ snd (resolve_identifier fromisoformat self w identifier).
Proof.
  intros Hin.
  destruct (Nat.eq_dec (length (split "~" identifier)) 1) as [Hbare|Hne].
  - destruct (resolve_identifier_bare identifier Hbare)
      as [(e & He)|(r & _ & _ & Hr)]; rewrite ?He, ?Hr in Hin; cbn in Hin;
      by apply list_elem_of_singleton in Hin.
  - rewrite (resolve_identifier_qualified identifier Hne) in Hin.
    by apply not_elem_of_nil in Hin.
Qed.

(** The effects of the fetch are requests and writes, never a query. *)
Lemma fetch_pod_log (resolved : pyval) (new_filename : string) (a : io_action) :
  a ∈ snd (fetch_pod w resolved new_filename) ->
  forall url number, a <> Posted url number.
Proof.
  intros Hin url number ->.
  destruct (fetch_pod_cases resolved new_filename)
    as [H|[H|(u & q & n & rest & _ & _ & [(e & H)|(s & c & room & _ & _ & _ & H)])]];
    rewrite H in Hin; cbn in Hin;
    repeat (apply elem_of_cons in Hin as [Hin|Hin]; [done|]);
    by apply not_elem_of_nil in Hin.
Qed.

(** X13: [download_pod] makes a tracking query exactly when the identifier
    contains no [~]. *)
Theorem download_pod_queries_iff_bare (identifier new_filename : string) :
  (exists url number,
     Posted url number
       ∈ snd (download_pod fromisoformat self w identifier new_filename))
  <-> "~"%char ∉ list_ascii_of_string identifier.
Proof.
  rewrite <- split_bare. unfold download_pod. split.
  - intros (url & number & Hin).
    destruct (Nat.eq_dec (length (split "~" identifier)) 1) as [|Hne]; [done|].
    rewrite (resolve_identifier_qualified identifier Hne) in Hin.
    cbn [io_bind] in Hin.
    destruct (fetch_pod w (PStr identifier) new_filename) as [res log] eqn:Hfetch.
    cbn in Hin. exfalso.
    eapply (fetch_pod_log (PStr identifier) new_filename (Posted url number));
      [rewrite Hfetch; exact Hin|done].
  - intros Hbare. exists (TRACK_URL self), identifier.
    destruct (resolve_identifier_bare identifier Hbare)
      as [(e & ->)|(r & _ & _ & ->)]; cbn [io_bind].
    + apply list_elem_of_here.
    + destruct (fetch_pod w (unique_id r) new_filename) as [res log].
      cbn. apply list_elem_of_here.
Qed.

(** X14: a file is written only after a request that succeeded.  When the
    effects of [download_pod] hold a write, the write is the last effect
    and the only write, the effect just before it is a request whose
    response had a good status, the file is the one asked for and could be
    opened, its chunks are those of that response that the file took, in
    order, and the call returns exactly when it took them all. *)
Theorem file_written_only_after_fetch (identifier new_filename : string)
  (filename : string) (chunks : list string) :
  Wrote filename chunks
    ∈ snd (download_pod fromisoformat self w identifier new_filename) ->
  filename = new_filename /\
  exists earlier url status_code received room,
    snd (download_pod fromisoformat self w identifier new_filename)
      = earlier ++ [Fetched url; Wrote new_filename chunks] /\
    (forall f c, Wrote f c ∉ earlier) /\
    get w url = Download status_code received /\
    raise_for_status status_code = Ok tt /\
    access w new_filename = Writable room /\
    chunks = written room received /\
    fst (download_pod fromisoformat self w identifier new_filename)
      = (if complete room received then Ok tt else Raise OSError).
Proof.
  unfold download_pod.
  pose proof (resolve_identifier_log identifier) as Hlog.
  destruct (resolve_identifier fromisoformat self w identifier)
    as [[resolved|e] log]; cbn [io_bind snd] in *.
  - destruct (fetch_pod_cases resolved new_filename)
      as [H|[H|(u & q & n & rest & _ & _ &
                [(e & H)|(s & c & room & Hget & Hok & Haccess & H)])]];
      rewrite H; cbn [fst snd]; intros Hin;
      apply elem_of_app in Hin as [Hin|Hin]; try (by apply Hlog in Hin);
      repeat (apply elem_of_cons in Hin as [Hin|Hin]; [simplify_eq|]);
      try (by apply not_elem_of_nil in Hin).
    split; [done|]. exists log, (pod_url n q), s, c, room.
    repeat (split; [done|]). by destruct (complete room c).
  - intros Hin. by apply Hlog in Hin.
Qed.

(** X15: for a bare tracking number a document is requested only when the
    query returned a valid result whose unique id is a string with a [~],
    and then for the first two pieces of that unique id: a query that
    returns [None], an invalid result, or a unique id that is no string or
    has no [~] ends the call with nothing requested. *)
Theorem bare_number_fetches_only_resolved (identifier new_filename url : string) :
  length (split "~" identifier) = 1%nat ->
  Fetched url ∈ snd (download_pod fromisoformat self w identifier new_filename) ->
  exists r u qualifier tracking_number rest,
    track_response fromisoformat
      (post w (TRACK_URL self) (AUTH_KEY self) identifier) = Ok (Some r) /\
    is_valid r = true /\
    unique_id r = PStr u /\
    split "~" u = qualifier :: tracking_number :: rest /\
    url = pod_url tracking_number qualifier.
Proof.
  intros Hbare. unfold download_pod.
  destruct (resolve_identifier_bare identifier Hbare)
    as [(e & ->)|(r & Hquery & Hvalid & ->)]; cbn [io_bind].
  - cbn. intros Hin. apply list_elem_of_singleton in Hin. done.
  - destruct (fetch_pod_cases (unique_id r) new_filename)
      as [H|[H|(u & q & n & rest & Hid & Hsplit & H)]].
    + rewrite H. cbn. intros Hin. apply list_elem_of_singleton in Hin. done.
    + rewrite H. cbn. intros Hin. apply list_elem_of_singleton in Hin. done.
    + intros Hin. exists r, u, q, n, rest. repeat (split; [done|]).
      destruct H as [(e & H)|(s & c & room & _ & _ & _ & H)];
        rewrite H in Hin; cbn in Hin;
        repeat (apply elem_of_cons in Hin as [Hin|Hin]; [by simplify_eq|]);
        by apply not_elem_of_nil in Hin.
Qed.
End Documents.


(** On a file system that takes one chunk of the two, the first chunk is
    in the file and the call raises; on one that refuses the file, nothing
    is written. *)
Example partial_write_raises :
  download_pod fromisoformat_basic sample_api cramped
    "2459545000~794644790138~FX" "pod.pdf" =
    (Raise OSError, [Fetched (pod_url "794644790138" "2459545000");
                     Wrote "pod.pdf" ["%PDF-1.4"]]).
Proof. reflexivity. Qed.

Example unwritable_file_raises :
  download_pod fromisoformat_basic sample_api read_only
    "2459545000~794644790138~FX" "missing/pod.pdf" =
    (Raise OSError, [Fetched (pod_url "794644790138" "2459545000")]).
Proof. reflexivity. Qed.

Lemma bare_number_is_resolved_then_fetched_witness :
  exists r,
    length (split "~" "794644790138") = 1%nat /\
    track_response fromisoformat_basic
      (post delivering (TRACK_URL sample_api) (AUTH_KEY sample_api) "794644790138")
      = Ok (Some r) /\
    is_valid r = true /\
    unique_id r = PStr "2459545000~794644790138~FX" /\
    split "~" "2459545000~794644790138~FX"
      = ["2459545000"; "794644790138"; "FX"] /\
    get delivering (pod_url "794644790138" "2459545000")
      = Download 200 ["%PDF-1.4"; "%%EOF"] /\
    raise_for_status 200 = Ok tt /\
    access delivering "pod.pdf" = Writable None /\
    download_pod fromisoformat_basic sample_api delivering "794644790138" "pod.pdf" =
      (if complete None ["%PDF-1.4"; "%%EOF"] then Ok tt else Raise OSError,
       [Posted (TRACK_URL sample_api) "794644790138";
        Fetched (pod_url "794644790138" "2459545000");
        Wrote "pod.pdf" (written None ["%PDF-1.4"; "%%EOF"])]).
Proof.
  eexists. split; [reflexivity|]. split; [vm_compute; reflexivity|].
  split; [reflexivity|]. split; [reflexivity|]. split; [reflexivity|].
  split; [reflexivity|]. split; [reflexivity|]. split; [reflexivity|].
  eapply (bare_number_is_resolved_then_fetched fromisoformat_basic sample_api
            delivering "794644790138" "pod.pdf" _ "2459545000~794644790138~FX"
            "2459545000" "794644790138" ["FX"] 200 ["%PDF-1.4"; "%%EOF"] None);
    reflexivity.
Defined.

Lemma delivering_writes :
  Wrote "pod.pdf" ["%PDF-1.4"; "%%EOF"]
    ∈ snd (download_pod fromisoformat_basic sample_api delivering
             "794644790138" "pod.pdf").
Proof.
  assert (snd (download_pod fromisoformat_basic sample_api delivering
                 "794644790138" "pod.pdf") =
          [Posted (TRACK_URL sample_api) "794644790138";
           Fetched (pod_url "794644790138" "2459545000");
           Wrote "pod.pdf" ["%PDF-1.4"; "%%EOF"]]) as -> by (vm_compute; reflexivity).
  apply list_elem_of_further, list_elem_of_further, list_elem_of_here.
Defined.

Lemma file_written_only_after_fetch_witness :
  Wrote "pod.pdf" ["%PDF-1.4"; "%%EOF"]
    ∈ snd (download_pod fromisoformat_basic sample_api delivering
             "794644790138" "pod.pdf") /\
  "pod.pdf" = "pod.pdf" /\
  exists earlier url status_code received room,
    snd (download_pod fromisoformat_basic sample_api delivering
           "794644790138" "pod.pdf")
      = earlier ++ [Fetched url; Wrote "pod.pdf" ["%PDF-1.4"; "%%EOF"]] /\
    (forall f c, Wrote f c ∉ earlier) /\
    get delivering url = Download status_code received /\
    raise_for_status status_code = Ok tt /\
    access delivering "pod.pdf" = Writable room /\
    ["%PDF-1.4"; "%%EOF"] = written room received /\
    fst (download_pod fromisoformat_basic sample_api delivering
           "794644790138" "pod.pdf")
      = (if complete room received then Ok tt else Raise OSError).
Proof.
  split; [exact delivering_writes|].
  apply (file_written_only_after_fetch fromisoformat_basic sample_api delivering
           "794644790138" "pod.pdf" "pod.pdf" ["%PDF-1.4"; "%%EOF"]).
  exact delivering_writes.
Defined.

Lemma delivering_fetches :
  Fetched (pod_url "794644790138" "2459545000")
    ∈ snd (download_pod fromisoformat_basic sample_api delivering
             "794644790138" "pod.pdf").
Proof.
  assert (snd (download_pod fromisoformat_basic sample_api delivering
                 "794644790138" "pod.pdf") =
          [Posted (TRACK_URL sample_api) "794644790138";
           Fetched (pod_url "794644790138" "2459545000");
           Wrote "pod.pdf" ["%PDF-1.4"; "%%EOF"]]) as -> by (vm_compute; reflexivity).
  apply list_elem_of_further, list_elem_of_here.
Defined.

Lemma bare_number_fetches_only_resolved_witness :
  length (split "~" "794644790138") = 1%nat /\
  Fetched (pod_url "794644790138" "2459545000")
    ∈ snd (download_pod fromisoformat_basic sample_api delivering
             "794644790138" "pod.pdf") /\
  exists r u qualifier tracking_number rest,
    track_response fromisoformat_basic
      (post delivering (TRACK_URL sample_api) (AUTH_KEY sample_api) "794644790138")
      = Ok (Some r) /\
    is_valid r = true /\
    unique_id r = PStr u /\
    split "~" u = qualifier :: tracking_number :: rest /\
    pod_url "794644790138" "2459545000" = pod_url tracking_number qualifier.
Proof.
  split; [reflexivity|]. split; [exact delivering_fetches|].
  apply (bare_number_fetches_only_resolved fromisoformat_basic sample_api
           delivering "794644790138" "pod.pdf"
           (pod_url "794644790138" "2459545000"));
    [reflexivity|exact delivering_fetches].
Defined.

(** A valid result whose unique id has no [~] ends the call with
    [IndexError] after the query. *)
Example unique_id_without_qualifier :
  download_pod fromisoformat_basic sample_api
    (serving (Response 200 (Some (body_of
       [PDict [("trackingNumberInfo",
                PDict [("trackingNumber", PStr "1");
                       ("trackingNumberUniqueId", PStr "1");
                       ("carrierCode", PStr "FDXE")]);
               ("dateAndTimes", PList [])]])))
             (Download 200 []))
    "1" "pod.pdf"
  = (Raise IndexError, [Posted (TRACK_URL sample_api) "1"]).
Proof. vm_compute. reflexivity. Qed.

(** A response without result blocks ends the call with [AttributeError]:
    the query returned [None]. *)
Example no_result_blocks_pod :
  download_pod fromisoformat_basic sample_api
    (serving (Response 200 (Some empty_body)) (Download 200 [])) "1" "pod.pdf"
  = (Raise AttributeError, [Posted (TRACK_URL sample_api) "1"]).
Proof. vm_compute. reflexivity. Qed.

(** ** The constructor *)

Lemma getitem_faults (v : pyval) (k : string) (e : exn) :
  getitem v k = Raise e -> e = KeyError (PStr k) \/ e = TypeError.
Proof.
  destruct v as [| | | | |entries]; cbn; try (intros [= <-]; by right).
  destruct (dict_get entries k); [done|]. intros [= <-]. by left.
Qed.

(** X16: the constructor raises [AuthenticationError] exactly when one of
    the two keys is the empty string, and then before anything is sent.
    The handler of line 140 never runs: no fault of
    [request.json()['access_token']] is an [IndexError]. *)
Theorem init_authentication_error_iff_empty_key
  (auth : string -> string -> string -> reply)
  (api_key secret_key api_authority auth_path track_path : string) :
  ((exists message,
      fst (FedexAPI_init auth api_key secret_key api_authority auth_path track_path)
        = Raise (AuthenticationError message))
   <-> api_key = "" \/ secret_key = "") /\
  (api_key = "" \/ secret_key = "" ->
   FedexAPI_init auth api_key secret_key api_authority auth_path track_path
     = (Raise invalid_key, [])).
Proof.
  assert (api_key = "" \/ secret_key = "" ->
          FedexAPI_init auth api_key secret_key api_authority auth_path track_path
            = (Raise invalid_key, [])) as Hempty.
  { intros [-> | ->]; unfold FedexAPI_init; cbn [String.eqb]; rewrite ?orb_true_r;
      done. }
  split; [|exact Hempty]. split.
  - intros [message Hraise]. unfold FedexAPI_init in Hraise.
    destruct (String.eqb_spec secret_key "") as [->|Hsecret]; [by right|].
    destruct (String.eqb_spec api_key "") as [->|Hkey]; [by left|].
    cbn [orb] in Hraise. exfalso.
    destruct (auth _ _ _) as [|status_code body]; [done|].
    destruct body as [data|]; cbn [json bind] in Hraise; [|done].
    destruct (getitem data "access_token") as [key|e] eqn:Hget; [done|].
    destruct (getitem_faults _ _ _ Hget) as [-> | ->]; done.
  - intros Hkeys. rewrite (Hempty Hkeys). eexists. reflexivity.
Qed.

(** X17: with two non-empty keys and a response whose body holds an
    ["access_token"], the constructor succeeds whatever the status code of
    the response: the URLs are the authority followed by the paths, the
    token is stored and printed as received, and the one request carries
    the two keys to the authentication URL. *)
Theorem init_ignores_status (auth : string -> string -> string -> reply)
  (api_key secret_key api_authority auth_path track_path : string)
  (status_code : Z) (data key : pyval) :
  api_key <> "" -> secret_key <> "" ->
  auth (api_authority ++ auth_path)%string api_key secret_key
    = Response status_code (Some data) ->
  getitem data "access_token" = Ok key ->
  FedexAPI_init auth api_key secret_key api_authority auth_path track_path =
    (Ok (mk_FedexAPI_attributes api_authority (api_authority ++ auth_path)%string
           (api_authority ++ track_path)%string api_key secret_key key),
     [Authenticated (api_authority ++ auth_path)%string api_key secret_key; Printed key]).
Proof.
  intros Hkey Hsecret Hauth Htoken. unfold FedexAPI_init.
  destruct (String.eqb_spec secret_key "") as [|_]; [done|].
  destruct (String.eqb_spec api_key "") as [|_]; [done|].
  cbn [orb]. rewrite Hauth. cbn [json bind]. rewrite Htoken. done.
Qed.

Lemma init_ignores_status_witness :
  "key" <> "" /\ "secret" <> "" /\
  granting_with_failure_status (API_AUTHORITY ++ AUTH_PATH)%string "key" "secret"
    = Response 503 (Some (PDict [("access_token", PStr "token")])) /\
  getitem (PDict [("access_token", PStr "token")]) "access_token"
    = Ok (PStr "token") /\
  FedexAPI_init granting_with_failure_status "key" "secret"
    API_AUTHORITY AUTH_PATH TRACK_PATH =
    (Ok (mk_FedexAPI_attributes API_AUTHORITY (API_AUTHORITY ++ AUTH_PATH)%string
           (API_AUTHORITY ++ TRACK_PATH)%string "key" "secret" (PStr "token")),
     [Authenticated (API_AUTHORITY ++ AUTH_PATH)%string "key" "secret";
      Printed (PStr "token")]).
Proof.
  split; [discriminate|]. split; [discriminate|]. split; [reflexivity|].
  split; [reflexivity|].
  apply (init_ignores_status granting_with_failure_status "key" "secret"
           API_AUTHORITY AUTH_PATH TRACK_PATH 503
           (PDict [("access_token", PStr "token")]) (PStr "token"));
    [discriminate|discriminate|reflexivity|reflexivity].
Defined.

(** X18: with two non-empty keys, a response whose body is a dict without
    ["access_token"], which is how rejected credentials come back, ends
    the constructor with the [KeyError] of that key, not with
    [AuthenticationError], and nothing is printed. *)
Theorem init_missing_token_raises_KeyError
  (auth : string -> string -> string -> reply)
  (api_key secret_key api_authority auth_path track_path : string)
  (status_code : Z) (entries : list (string * pyval)) :
  api_key <> "" -> secret_key <> "" ->
  auth (api_authority ++ auth_path)%string api_key secret_key
    = Response status_code (Some (PDict entries)) ->
  dict_get entries "access_token" = None ->
  FedexAPI_init auth api_key secret_key api_authority auth_path track_path =
    (Raise (KeyError (PStr "access_token")),
     [Authenticated (api_authority ++ auth_path)%string api_key secret_key]).
Proof.
  intros Hkey Hsecret Hauth Hmissing. unfold FedexAPI_init.
  destruct (String.eqb_spec secret_key "") as [|_]; [done|].
  destruct (String.eqb_spec api_key "") as [|_]; [done|].
  cbn [orb]. rewrite Hauth. cbn [json bind getitem]. rewrite Hmissing. done.
Qed.

Lemma init_missing_token_raises_KeyError_witness :
  "key" <> "" /\ "secret" <> "" /\
  rejecting (API_AUTHORITY ++ AUTH_PATH)%string "key" "secret"
    = Response 401 (Some (PDict [("errors", PList [])])) /\
  dict_get [("errors", PList [])] "access_token" = None /\
  FedexAPI_init rejecting "key" "secret" API_AUTHORITY AUTH_PATH TRACK_PATH =
    (Raise (KeyError (PStr "access_token")),
     [Authenticated (API_AUTHORITY ++ AUTH_PATH)%string "key" "secret"]).
Proof.
  split; [discriminate|]. split; [discriminate|]. split; [reflexivity|].
  split; [reflexivity|].
  apply (init_missing_token_raises_KeyError rejecting "key" "secret"
           API_AUTHORITY AUTH_PATH TRACK_PATH 401 [("errors", PList [])]);
    [discriminate|discriminate|reflexivity|reflexivity].
Defined.

(** ** The script's [trackbynumber] *)

Lemma is_str_eq (k : string) (v : pyval) : is_str k v = true -> v = PStr k.
Proof.
  destruct v as [| | |s| |]; cbn; try done.
  by destruct (String.eqb_spec s k) as [->|].
Qed.

(** On entries that have a type and a timestamp the loop ends with the
    timestamps of the last [SHIP] and of the last [ACTUAL_DELIVERY]. *)
Lemma scan_readable (entries : list pyval) :
  Forall Legacy.readable entries ->
  forall ship deliverDate,
    exists s,
      Legacy.last_dateTime "SHIP" entries (Some ship) = Some s /\
      Legacy.scan entries ship deliverDate
        = Some (s, Legacy.last_dateTime "ACTUAL_DELIVERY" entries deliverDate).
Proof.
  induction 1 as [|entry entries (t & d & Htype & Hdate) _ IH];
    intros ship deliverDate.
  - exists ship. done.
  - cbn [Legacy.scan Legacy.last_dateTime]. rewrite Htype, Hdate.
    cbn [Legacy.caught mbind option_bind fmap option_map].
    destruct (is_str "SHIP" t), (is_str "ACTUAL_DELIVERY" t);
      cbn [mbind option_bind fmap option_map]; apply IH.
Qed.

(** Where the two variables of the loop get their values from. *)
Lemma scan_provenance (entries : list pyval) :
  forall ship0 deliver0 ship deliver,
    Legacy.scan entries ship0 deliver0 = Some (ship, deliver) ->
    (ship = ship0 \/
     exists e, e ∈ entries /\ getitem e "type" = Ok (PStr "SHIP")) /\
    (deliver = deliver0 \/
     exists e, e ∈ entries /\ getitem e "type" = Ok (PStr "ACTUAL_DELIVERY")).
Proof.
  induction entries as [|entry entries IH]; intros ship0 deliver0 ship deliver Hscan.
  - cbn in Hscan. simplify_eq. split; by left.
  - cbn [Legacy.scan] in Hscan.
    destruct (getitem entry "type") as [t|] eqn:Htype; [|done].
    cbn [Legacy.caught mbind option_bind] in Hscan.
    destruct (is_str "SHIP" t) eqn:Hship;
      destruct (is_str "ACTUAL_DELIVERY" t) eqn:Hdel;
      try (destruct (getitem entry "dateTime") as [d|]; [|done]);
      cbn [Legacy.caught mbind option_bind fmap option_map] in Hscan;
      destruct (IH _ _ _ _ Hscan) as [[Hs|(e & He & Hse)] [Hd|(e' & He' & Hde)]];
      try apply is_str_eq in Hship; try apply is_str_eq in Hdel; subst;
      split;
      try (by left);
      try (right; exists entry; split; [apply list_elem_of_here|done]);
      try (right; exists e; split; [by apply list_elem_of_further|done]);
      try (right; exists e'; split; [by apply list_elem_of_further|done]).
Qed.

(** X19: for a body with a readable status code and entries that all have
    a type and a timestamp, when the timestamp of the last [SHIP] entry and
    that of the last [ACTUAL_DELIVERY] entry are strings whose part before
    the first [T] the date functions accept, the script returns a valid
    package with the two reformatted dates and the body, whatever the HTTP
    status, and warns about the number exactly when the code is not
    ["DL"]. *)
Theorem legacy_valid_package (reformat : string -> option string)
  (status_code : Z) (data code : pyval) (entries : list pyval)
  (number s d delivery shipping : string) :
  Legacy.status_code_of data = Some code ->
  Legacy.entries_of data = Some entries ->
  Forall Legacy.readable entries ->
  Legacy.last_dateTime "SHIP" entries (Some (PStr "Unavailable")) = Some (PStr s) ->
  Legacy.last_dateTime "ACTUAL_DELIVERY" entries None = Some (PStr d) ->
  reformat (Legacy.until_T d) = Some delivery ->
  reformat (Legacy.until_T s) = Some shipping ->
  Legacy.trackbynumber reformat (Response status_code (Some data)) number =
    (Ok (Legacy.mk_Package true delivery shipping data),
     if is_str "DL" code then [] else [number]).
Proof.
  intros Hcode Hentries Hreadable Hship Hdel Hdelivery Hshipping.
  unfold Legacy.trackbynumber, Legacy.attempt. rewrite Hcode, Hentries.
  destruct (scan_readable entries Hreadable (PStr "Unavailable") None)
    as (s' & Hs' & Hscan).
  rewrite Hship in Hs'. simplify_eq. rewrite Hdel in Hscan.
  cbn [mbind option_bind]. rewrite Hscan.
  cbn [mbind option_bind fst snd Legacy.cut]. rewrite Hdelivery.
  cbn [mbind option_bind]. rewrite Hshipping. done.
Qed.

Lemma legacy_entries_readable : Forall Legacy.readable legacy_entries.
Proof. repeat constructor; eexists _, _; split; reflexivity. Qed.

Lemma legacy_valid_package_witness :
  Legacy.status_code_of (Legacy.body_with "IT" legacy_entries) = Some (PStr "IT") /\
  Legacy.entries_of (Legacy.body_with "IT" legacy_entries) = Some legacy_entries /\
  Forall Legacy.readable legacy_entries /\
  Legacy.last_dateTime "SHIP" legacy_entries (Some (PStr "Unavailable"))
    = Some (PStr "2022-02-01T08:00:00+00:00") /\
  Legacy.last_dateTime "ACTUAL_DELIVERY" legacy_entries None
    = Some (PStr "2022-02-05T14:30:00+00:00") /\
  Legacy.reformat_basic (Legacy.until_T "2022-02-05T14:30:00+00:00")
    = Some "02/05/2022" /\
  Legacy.reformat_basic (Legacy.until_T "2022-02-01T08:00:00+00:00")
    = Some "02/01/2022" /\
  Legacy.trackbynumber Legacy.reformat_basic
    (Response 500 (Some (Legacy.body_with "IT" legacy_entries))) "794644790138" =
    (Ok (Legacy.mk_Package true "02/05/2022" "02/01/2022"
           (Legacy.body_with "IT" legacy_entries)),
     if is_str "DL" (PStr "IT") then [] else ["794644790138"]).
Proof.
  split; [reflexivity|]. split; [reflexivity|].
  split; [exact legacy_entries_readable|].
  split; [reflexivity|]. split; [reflexivity|]. split; [reflexivity|].
  split; [reflexivity|].
  apply (legacy_valid_package Legacy.reformat_basic 500
           (Legacy.body_with "IT" legacy_entries) (PStr "IT") legacy_entries
           "794644790138" "2022-02-01T08:00:00+00:00" "2022-02-05T14:30:00+00:00"
           "02/05/2022" "02/01/2022");
    try reflexivity.
  exact legacy_entries_readable.
Defined.

(** X20: the script reports a package as valid only when the entries it
    read hold a [SHIP] and an [ACTUAL_DELIVERY]: without a delivery
    [deliverDate] is never bound, and without a [SHIP] the placeholder
    ["Unavailable"] loses its last letter and is no date. *)
Theorem legacy_valid_needs_ship_and_delivery (reformat : string -> option string)
  (status_code : Z) (body : option pyval) (number : string)
  (p : Legacy.Package) (warned : list string) :
  reformat "Unavailabl" = None ->
  Legacy.trackbynumber reformat (Response status_code body) number = (Ok p, warned) ->
  Legacy.isValid p = true ->
  exists data entries shipping delivering,
    body = Some data /\
    Legacy.entries_of data = Some entries /\
    shipping ∈ entries /\ getitem shipping "type" = Ok (PStr "SHIP") /\
    delivering ∈ entries /\
    getitem delivering "type" = Ok (PStr "ACTUAL_DELIVERY").
Proof.
  intros Hplaceholder Hrun Hvalid. unfold Legacy.trackbynumber in Hrun.
  destruct (Legacy.attempt reformat body number) as [[q|] log] eqn:Hattempt;
    simplify_eq; try done.
  unfold Legacy.attempt in Hattempt. destruct body as [data|]; [|done].
  destruct (Legacy.status_code_of data) as [code|]; [|done].
  injection Hattempt as Hq _.
  destruct (Legacy.entries_of data) as [entries|] eqn:Hentries; [|done].
  cbn [mbind option_bind] in Hq.
  destruct (Legacy.scan entries (PStr "Unavailable") None)
    as [[ship deliver]|] eqn:Hscan; [|done].
  cbn [mbind option_bind fst snd] in Hq.
  destruct (Legacy.cut ship) as [cut_ship|] eqn:Hcut; [|done].
  cbn [mbind option_bind] in Hq.
  destruct deliver as [deliver|]; [|done].
  cbn [mbind option_bind] in Hq.
  destruct (Legacy.cut deliver) as [cut_deliver|]; [|done].
  cbn [mbind option_bind] in Hq.
  destruct (reformat cut_deliver) as [delivery|]; [|done].
  cbn [mbind option_bind] in Hq.
  destruct (reformat cut_ship) as [shipping|] eqn:Hshipping; [|done].
  destruct (scan_provenance entries _ _ _ _ Hscan)
    as [[->|(e & He & Hship)] [Hnone|(e' & He' & Hdel)]]; try done.
  - exfalso. assert (cut_ship = "Unavailabl") as -> by (cbn in Hcut; congruence).
    congruence.
  - exists data, entries, e, e'. done.
Qed.

Lemma legacy_valid_needs_ship_and_delivery_witness :
  exists p,
    Legacy.reformat_basic "Unavailabl" = None /\
    Legacy.trackbynumber Legacy.reformat_basic
      (Response 200 (Some (Legacy.body_with "DL" legacy_entries))) "794644790138"
      = (Ok p, []) /\
    Legacy.isValid p = true /\
    exists data entries shipping delivering,
      Some (Legacy.body_with "DL" legacy_entries) = Some data /\
      Legacy.entries_of data = Some entries /\
      shipping ∈ entries /\ getitem shipping "type" = Ok (PStr "SHIP") /\
      delivering ∈ entries /\
      getitem delivering "type" = Ok (PStr "ACTUAL_DELIVERY").
Proof.
  eexists. split; [reflexivity|]. split; [vm_compute; reflexivity|].
  split; [reflexivity|].
  eapply (legacy_valid_needs_ship_and_delivery Legacy.reformat_basic 200
            (Some (Legacy.body_with "DL" legacy_entries)) "794644790138" _ []);
    [reflexivity|vm_compute; reflexivity|reflexivity].
Defined.

(** Without a delivery the package is invalid, and the warning is
    printed all the same. *)
Example legacy_undelivered :
  Legacy.trackbynumber Legacy.reformat_basic
    (Response 200 (Some (Legacy.body_with "IT"
       [raw_event "SHIP" "2022-02-01T08:00:00+00:00"]))) "794644790138"
  = (Ok Legacy.invalid_package, ["794644790138"]).
Proof. vm_compute. reflexivity. Qed.

(** A timestamp without a [T] loses its last character and is no date. *)
Example legacy_plain_dates :
  Legacy.until_T "2022-02-01" = "2022-02-0" /\
  Legacy.trackbynumber Legacy.reformat_basic
    (Response 200 (Some (Legacy.body_with "DL"
       [raw_event "SHIP" "2022-02-01"; raw_event "ACTUAL_DELIVERY" "2022-02-05"])))
    "794644790138"
  = (Ok Legacy.invalid_package, []).
Proof. split; vm_compute; reflexivity. Qed.

(** Results normalised from non-empty event sequences of one awareness are
    results the resolver can compare. *)
Lemma normalized_results_comparable (rs : list TrackingResult) (aw : bool) :
  Forall (fun r => exists ids evs,
            evs <> [] /\ same_awareness aw evs /\ normalize ids evs = Ok r) rs ->
  comparable_results aw rs.
Proof.
  induction 1 as [|r rs (ids & evs & Hne & Hevs & Hr) _ IH]; [constructor|].
  constructor; [|exact IH].
  destruct (normalize_comparable ids evs aw Hne Hevs) as (r' & Hr' & Hcomparable).
  rewrite Hr in Hr'. simplify_eq. by apply Forall_cons in Hcomparable as [? _].
Qed.
